(** * Sentiment analysis tool (app.py): result parser, chart renderer,
      readiness poller and upload handler

    A shallow embedding of [src/app.py].

    - Python [str] values are Rocq [string]s; a character is a code point
      below 256, so the whitespace recognised by [str.strip] and
      [str.split] is 9-13, 28-32, 133 and 160, and the decimal digits
      accepted by [int] are the ASCII ones.
    - Python [int] values are [Z].
    - The [dict] built by the parser is an association list in insertion
      order without duplicate keys: the renderer reads keys and values in
      that order.
    - Exceptions are values of [py_exception]; a computation that may raise
      returns a [result].
    - The remote service is a record of oracles; the poll loop runs under
      a bound on the number of passes through its body, and the sleeps,
      fetches and session creations are recorded in a trace.
    - The local disk is a finite map from paths to contents. What the
      file system, the page and the plotting library answer is given by a
      record of oracles, as for the remote service. *)

From Stdlib Require Import ZArith QArith Ascii Lia.
From stdpp Require Import gmap strings.

Local Open Scope Z_scope.

(** ** Exceptions and fallible computations *)

Inductive py_exception : Type :=
  | IndexError_list_index_out_of_range
      (* [xs[i]] with [i] out of range *)
  | ValueError_invalid_literal (literal : string)
      (* [int]: invalid literal for int() with base 10 *)
  | ValueError_exceeds_digit_limit (digits : nat)
      (* [int]: more digits than the interpreter's conversion limit *)
  | ValueError_incomplete_sentiment_data
      (* "Incomplete sentiment data found in the result." *)
  | ValueError_failed_to_parse (cause : py_exception)
      (* f"Failed to parse result: {e}" *)
  | Exception_failed_to_process (file_name : string)
      (* f"File {file.name} failed to process" *)
  | FileNotFoundError (path : string)
      (* [os.remove] of a path that does not exist *)
  | RemoteError (message : string)
      (* an exception raised by a call to the remote service *)
  | ValueError_negative_wedge_sizes
      (* [ax.pie]: "Wedge sizes 'x' must be non negative values" *)
  | ValueError_label_length
      (* [ax.pie]: "'label' must be of length 'x'" *)
  | ValueError_explode_length
      (* [ax.pie]: "'explode' must be of length 'x'" *)
  | ValueError_nan_wedge
      (* [ax.pie]: the sizes sum to zero, their fractions are not numbers
         and no wedge can be built from them *)
  | OSError (message : string)
      (* an exception raised by [open], [read] or [write] *)
  | HostError (kind message : string)
      (* another exception raised by the plotting library or by the page *)
  | ScriptControl (kind : string).
      (* an exception that is not an [Exception], such as the stop or the
         rerun of the script by the page, or an interrupt *)

(** [isinstance(e, Exception)], the test of [except Exception]. *)
Definition is_Exception (e : py_exception) : bool :=
  match e with
  | ScriptControl _ => false
  | _ => true
  end.

Inductive result (A : Type) : Type :=
  | Ok (a : A)
  | Raise (e : py_exception).
Arguments Ok {A} a.
Arguments Raise {A} e.

Definition bind {A B : Type} (m : result A) (k : A -> result B) : result B :=
  match m with
  | Ok a => k a
  | Raise e => Raise e
  end.

Notation "'do' x <- m ; k" := (bind m (fun x => k))
  (at level 10, x name, m at level 100, k at level 200).

(** [xs[i]] on a Python list. *)
Definition py_index {A : Type} (xs : list A) (i : nat) : result A :=
  match nth_error xs i with
  | Some x => Ok x
  | None => Raise IndexError_list_index_out_of_range
  end.

(** ** Python string operations used by the parser *)

Module PyStr.

(** Line feed, the separator of [result.strip().split("\n")]. *)
Definition LF : ascii := ascii_of_nat 10.
Definition colon : ascii := ":"%char.
Definition percent : ascii := "%"%char.
Definition underscore : ascii := "_"%char.

(** [c.isspace()] for a code point below 256. *)
Definition is_space (c : ascii) : bool :=
  let n := N_of_ascii c in
  ((9 <=? n) && (n <=? 13) || (28 <=? n) && (n <=? 32)
   || (n =? 133) || (n =? 160))%N.

Fixpoint lstrip (s : string) : string :=
  match s with
  | EmptyString => EmptyString
  | String c s' => if is_space c then lstrip s' else s
  end.

Fixpoint rstrip (s : string) : string :=
  match s with
  | EmptyString => EmptyString
  | String c s' =>
      match rstrip s' with
      | EmptyString => if is_space c then EmptyString else String c EmptyString
      | r => String c r
      end
  end.

(** [s.strip()] *)
Definition strip (s : string) : string := rstrip (lstrip s).

(** [s.split(sep)] for a separator of one character. The list is never
    empty. *)
Fixpoint split (sep : ascii) (s : string) : list string :=
  match s with
  | EmptyString => [EmptyString]
  | String c s' =>
      if Ascii.eqb c sep then EmptyString :: split sep s'
      else match split sep s' with
           | seg :: segs => String c seg :: segs
           | [] => [String c EmptyString]
           end
  end.

(** [s.replace(old, new)] for [old] of one character and [new] empty. *)
Fixpoint remove_char (old : ascii) (s : string) : string :=
  match s with
  | EmptyString => EmptyString
  | String c s' =>
      if Ascii.eqb c old then remove_char old s'
      else String c (remove_char old s')
  end.

(** [s.split()]: the maximal runs of non-whitespace characters. *)
Fixpoint split_ws (s : string) : list string :=
  match s with
  | EmptyString => []
  | String c s' =>
      if is_space c then split_ws s'
      else match s' with
           | EmptyString => [String c EmptyString]
           | String c' _ =>
               if is_space c' then String c EmptyString :: split_ws s'
               else match split_ws s' with
                    | tok :: toks => String c tok :: toks
                    | [] => [String c EmptyString]
                    end
           end
  end.

Fixpoint is_prefix (p s : string) : bool :=
  match p, s with
  | EmptyString, _ => true
  | String a p', String b s' => Ascii.eqb a b && is_prefix p' s'
  | String _ _, EmptyString => false
  end.

(** [needle in s] *)
Fixpoint contains (needle s : string) : bool :=
  is_prefix needle s ||
  match s with
  | EmptyString => false
  | String _ s' => contains needle s'
  end.

(** *** [int(s)] in base 10 *)

Definition digit_value (c : ascii) : option Z :=
  let n := N_of_ascii c in
  if ((48 <=? n) && (n <=? 57))%N then Some (Z.of_N n - 48) else None.

(** The interpreter's default limit on the number of digits of a decimal
    string converted to [int]. *)
Definition max_str_digits : nat := 4300.

(** Scan of the digits and underscores at the front of [s]: the value and
    the number of digits read and what is left of [s], or [None] for two
    underscores in a row or an underscore not followed by a digit. *)
Fixpoint scan_digits (after_underscore : bool) (acc : Z) (digits : nat)
    (s : string) : option (Z * nat * string) :=
  match s with
  | EmptyString =>
      if after_underscore then None else Some (acc, digits, EmptyString)
  | String c s' =>
      if Ascii.eqb c underscore then
        if after_underscore then None else scan_digits true acc digits s'
      else
        match digit_value c with
        | Some d => scan_digits false (10 * acc + d) (S digits) s'
        | None => if after_underscore then None else Some (acc, digits, s)
        end
  end.

Definition split_sign (s : string) : bool * string :=
  match s with
  | String c s' =>
      if Ascii.eqb c "-"%char then (true, s')
      else if Ascii.eqb c "+"%char then (false, s')
      else (false, s)
  | EmptyString => (false, s)
  end.

Definition py_int (s : string) : result Z :=
  let '(negative, body) := split_sign (strip s) in
  if is_prefix "_" body then Raise (ValueError_invalid_literal s)
  else
    match scan_digits false 0 0 body with
    | None => Raise (ValueError_invalid_literal s)
    | Some (v, digits, rest) =>
        if (max_str_digits <? digits)%nat
        then Raise (ValueError_exceeds_digit_limit digits)
        else
          match digits, rest with
          | S _, EmptyString => Ok (if negative then - v else v)
          | _, _ => Raise (ValueError_invalid_literal s)
          end
    end.

End PyStr.

Import PyStr.

(** ** The Sentiment Tally: a [dict] from label to percentage *)

Module PyDict.

(** Entries in insertion order, no key twice. *)
Definition dict : Type := list (string * Z).

(** [d[k] = v]: an existing key keeps its place, a new one goes last. *)
Fixpoint setitem (k : string) (v : Z) (d : dict) : dict :=
  match d with
  | [] => [(k, v)]
  | (k', v') :: d' =>
      if String.eqb k' k then (k', v) :: d' else (k', v') :: setitem k v d'
  end.

Fixpoint getitem (k : string) (d : dict) : option Z :=
  match d with
  | [] => None
  | (k', v') :: d' => if String.eqb k' k then Some v' else getitem k d'
  end.

Definition keys (d : dict) : list string := map fst d.
Definition values (d : dict) : list Z := map snd d.
Definition len (d : dict) : nat := length d.

(** [d1 == d2]: the same keys with the same values, in any order. *)
Definition eqb (d1 d2 : dict) : bool :=
  Nat.eqb (len d1) (len d2)
  && forallb (fun kv => match getitem (fst kv) d2 with
                        | Some v => Z.eqb (snd kv) v
                        | None => false
                        end) d1.

End PyDict.

Import PyDict.

(** ** parse_analysis_result *)

(** The expression on the right of each of the three assignments:
    [int(line.split(":")[1].strip().replace("%", "").split()[0])]. *)
Definition extract_percentage (line : string) : result Z :=
  do segment <- py_index (split colon line) 1;
  do token <- py_index (split_ws (remove_char percent (strip segment))) 0;
  py_int token.

(** The body of [for line in lines]. *)
Definition scan_line (sentiment_data : dict) (line : string) : result dict :=
  if contains "Positive" line then
    do v <- extract_percentage line; Ok (setitem "Positive" v sentiment_data)
  else if contains "Negative" line then
    do v <- extract_percentage line; Ok (setitem "Negative" v sentiment_data)
  else if contains "Neutral" line then
    do v <- extract_percentage line; Ok (setitem "Neutral" v sentiment_data)
  else Ok sentiment_data.

Fixpoint scan_lines (sentiment_data : dict) (lines : list string)
    : result dict :=
  match lines with
  | [] => Ok sentiment_data
  | line :: lines' =>
      do sentiment_data' <- scan_line sentiment_data line;
      scan_lines sentiment_data' lines'
  end.

(** The [try] block. *)
Definition parse_try (text : string) : result dict :=
  let lines := split LF (strip text) in
  do sentiment_data <- scan_lines [] lines;
  if negb (Nat.eqb (len sentiment_data) 3)
  then Raise ValueError_incomplete_sentiment_data
  else Ok sentiment_data.

(** The output on the console is not modelled. *)
Definition parse_analysis_result (text : string) : result dict :=
  match parse_try text with
  | Ok sentiment_data => Ok sentiment_data
  | Raise e => Raise (ValueError_failed_to_parse e)
  end.

(** ** generate_pie_chart *)

(** The arguments of the one call [ax.pie(...)] that draws the figure. *)
Record pie_chart : Type := {
  sizes : list Z;
  explode : list Q;
  labels : list string;
  autopct : string;
  shadow : bool;
  startangle : Z;
  colors : list string
}.

Definition green : string := "#4CAF50".
Definition red : string := "#F44336".
Definition yellow : string := "#FFC107".

(** The plotting library. Sizes that fit 64 bits are converted to
    floating point without loss of sign or overflow; for larger ones the
    conversion and the arithmetic on its result are not modelled, and
    whether they raise is an answer of the library. *)
Record matplotlib : Type := {
  float32_sizes : list Z -> option py_exception
}.

Definition fits_int64 (v : Z) : bool :=
  (- 2 ^ 63 <=? v) && (v <? 2 ^ 63).

(** [ax.pie(sizes, explode=..., labels=..., ...)]: the checks of the
    library in their order, then the wedges, which cannot be built when
    the sizes sum to zero. *)
Definition ax_pie (plt : matplotlib) (chart : pie_chart)
    : result pie_chart :=
  match (if forallb fits_int64 (sizes chart) then None
         else float32_sizes plt (sizes chart)) with
  | Some e => Raise e
  | None =>
      if existsb (fun v => v <? 0) (sizes chart)
      then Raise ValueError_negative_wedge_sizes
      else if negb (Nat.eqb (length (sizes chart)) (length (labels chart)))
      then Raise ValueError_label_length
      else if negb (Nat.eqb (length (sizes chart)) (length (explode chart)))
      then Raise ValueError_explode_length
      else if forallb (Z.eqb 0) (sizes chart)
              && negb (Nat.eqb (length (sizes chart)) 0)
      then Raise ValueError_nan_wedge
      else Ok chart
  end.

(** The arguments that generate_pie_chart gives to [ax.pie]. *)
Definition pie_arguments (data : dict) : pie_chart :=
  {| sizes := values data;
     explode := [1 # 10; 1 # 10; 0]%Q;
     labels := keys data;
     autopct := "%1.1f%%";
     shadow := true;
     startangle := 140;
     colors := [green; red; yellow] |}.

(** The figure is described by the arguments of the call that drew it. *)
Definition generate_pie_chart (plt : matplotlib) (data : dict)
    : result pie_chart :=
  ax_pie plt (pie_arguments data).

(** What the plotting library draws: slice [i] has the [i]-th size, label
    and offset, and the colors are taken in turn, starting over at the end
    of the list. *)
Record wedge : Type := {
  wedge_label : string;
  wedge_size : Z;
  wedge_color : option string;
  wedge_explode : option Q
}.

Definition nth_cyclic {A : Type} (xs : list A) (i : nat) : option A :=
  match xs with
  | [] => None
  | _ :: _ => nth_error xs (i mod length xs)
  end.

Definition wedges (chart : pie_chart) : list wedge :=
  imap (fun i size_label =>
          {| wedge_label := snd size_label;
             wedge_size := fst size_label;
             wedge_color := nth_cyclic (colors chart) i;
             wedge_explode := nth_error (explode chart) i |})
       (combine (sizes chart) (labels chart)).

(** The color of the slice labelled [label], if there is one. *)
Definition color_of (label : string) (chart : pie_chart) : option string :=
  match find (fun w => String.eqb (wedge_label w) label) (wedges chart) with
  | Some w => wedge_color w
  | None => None
  end.

(** ** The remote service, the local disk and the user interface *)

Inductive file_state : Type :=
  | STATE_UNSPECIFIED
  | PROCESSING
  | ACTIVE
  | FAILED.

(** [state.name] *)
Definition state_name (s : file_state) : string :=
  match s with
  | STATE_UNSPECIFIED => "STATE_UNSPECIFIED"
  | PROCESSING => "PROCESSING"
  | ACTIVE => "ACTIVE"
  | FAILED => "FAILED"
  end.

(** The handle of an uploaded file. *)
Record File : Type := {
  name : string;
  state : file_state
}.

(** The answers of the remote service. The answer of [get_file] depends on
    how many times the state was fetched before. *)
Record remote : Type := {
  upload_file : string -> string -> result File;
  get_file : nat -> string -> result File;
  send_message : File -> string -> result string
}.

(** The settings of the model. *)
Record GenerationConfig : Type := {
  temperature : Q;
  top_p : Q;
  top_k : Z;
  max_output_tokens : Z;
  response_mime_type : string
}.

Record GenerativeModel : Type := {
  model_name : string;
  model_config : GenerationConfig;
  system_instruction : string
}.

Inductive event : Type :=
  | EvUpload (path mime_type : string)
  | EvSleep (seconds : Z)
  | EvGetFile (file_name : string)
  | EvStartChat (model : GenerativeModel) (history_file : File)
  | EvSendMessage (message : string)
  | EvSuccess (message : string)
  | EvWriteText (text : string)
  | EvPyplot (chart : pie_chart)
  | EvError (e : py_exception).

Record machine : Type := {
  disk : gmap string string;
  fetches : nat;
  clock : Z;
  trace : list event
}.

Definition emit (ev : event) (m : machine) : machine :=
  {| disk := disk m; fetches := fetches m; clock := clock m;
     trace := trace m ++ [ev] |}.

(** [time.sleep(seconds)] *)
Definition sleep (seconds : Z) (m : machine) : machine :=
  emit (EvSleep seconds)
    {| disk := disk m; fetches := fetches m; clock := clock m + seconds;
       trace := trace m |}.

(** [genai.get_file(file_name)] *)
Definition fetch (srv : remote) (file_name : string) (m : machine)
    : result File * machine :=
  (get_file srv (fetches m) file_name,
   emit (EvGetFile file_name)
     {| disk := disk m; fetches := S (fetches m); clock := clock m;
        trace := trace m |}).

(** ** upload_to_gemini, wait_for_file_active, analyze_sentiment *)

Definition upload_to_gemini (srv : remote) (path mime_type : string)
    (m : machine) : result File * machine :=
  (upload_file srv path mime_type, emit (EvUpload path mime_type) m).

(** [file.state.name == "PROCESSING"], the condition of the [while] loop. *)
Definition loop_condition (file : File) : bool :=
  String.eqb (state_name (state file)) "PROCESSING".

(** The body of the [while] loop. *)
Definition loop_body (srv : remote) (file : File) (m : machine)
    : result File * machine :=
  fetch srv (name file) (sleep 10 m).

(** The [while] loop, cut off after [fuel] passes through its body: [None]
    when the condition still holds then. *)
Fixpoint poll (srv : remote) (fuel : nat) (file : File) (m : machine)
    : option (result File * machine) :=
  if loop_condition file then
    match fuel with
    | O => None
    | S fuel' =>
        match loop_body srv file m with
        | (Ok file', m') => poll srv fuel' file' m'
        | (Raise e, m') => Some (Raise e, m')
        end
    end
  else Some (Ok file, m).

Definition wait_for_file_active (srv : remote) (fuel : nat) (file : File)
    (m : machine) : option (result File * machine) :=
  match poll srv fuel file m with
  | None => None
  | Some (Raise e, m') => Some (Raise e, m')
  | Some (Ok file', m') =>
      if negb (String.eqb (state_name (state file')) "ACTIVE")
      then Some (Raise (Exception_failed_to_process (name file')), m')
      else Some (Ok file', m')
  end.

Definition generation_config : GenerationConfig :=
  {| temperature := 1;
     top_p := (95 # 100)%Q;
     top_k := 40;
     max_output_tokens := 8192;
     response_mime_type := "text/plain" |}.

Definition model : GenerativeModel :=
  {| model_name := "gemini-1.5-pro";
     model_config := generation_config;
     system_instruction :=
       "You are an expert sentiment analyzer. Analyze the content of the uploaded CSV file and provide sentiment percentages for positive, negative, and neutral reviews, along with the count in each category. Do not give the response in markdown format just give plain string, give the perfect integer numbers" |}.

Definition prompt : string := "Analyze the sentiment of this file.".

Definition analyze_sentiment (srv : remote) (fuel : nat) (file_path : string)
    (m : machine) : option (result string * machine) :=
  match upload_to_gemini srv file_path "text/csv" m with
  | (Raise e, m1) => Some (Raise e, m1)
  | (Ok uploaded_file, m1) =>
      match wait_for_file_active srv fuel uploaded_file m1 with
      | None => None
      | Some (Raise e, m2) => Some (Raise e, m2)
      | Some (Ok uploaded_file', m2) =>
          let m3 := emit (EvStartChat model uploaded_file') m2 in
          let m4 := emit (EvSendMessage prompt) m3 in
          Some (send_message srv uploaded_file' prompt, m4)
      end
  end.

(** ** The upload handler *)

(** The file picked by the user. *)
Record UploadedFile : Type := {
  upload_name : string;
  upload_bytes : string
}.

(** The disk once [data] is in the file [path]. *)
Definition write_file (path data : string) (m : machine) : machine :=
  {| disk := <[path := data]> (disk m); fetches := fetches m;
     clock := clock m; trace := trace m |}.

(** [os.remove(path)] *)
Definition os_remove (path : string) (m : machine) : result unit * machine :=
  match disk m !! path with
  | Some _ =>
      (Ok tt, {| disk := delete path (disk m); fetches := fetches m;
                 clock := clock m; trace := trace m |})
  | None => (Raise (FileNotFoundError path), m)
  end.

(** What becomes of saving a file: it is written; or [open] raises and no
    file is made or changed; or the file is opened, and so made or emptied,
    and reading the upload or writing it raises with [written] in the
    file. *)
Inductive save_outcome : Type :=
  | Saved
  | OpenFails (e : py_exception)
  | WriteFails (e : py_exception) (written : string).

(** The local side of a run: the plotting library, the file system, and
    the page, whose answer to a call may depend on what it shows
    already. *)
Record host : Type := {
  plt : matplotlib;
  save_file : string -> string -> save_outcome;
  display : list event -> event -> option py_exception
}.

(** [with open(path, "wb") as f: f.write(uploaded_file.read())] *)
Definition save_upload (h : host) (path data : string) (m : machine)
    : result unit * machine :=
  match save_file h path data with
  | Saved => (Ok tt, write_file path data m)
  | OpenFails e => (Raise e, m)
  | WriteFails e written => (Raise e, write_file path written m)
  end.

(** A call that shows [ev] on the page: [st.success], [st.write],
    [st.pyplot] or [st.error]. *)
Definition st (h : host) (ev : event) (m : machine) : result unit * machine :=
  match display h (trace m) ev with
  | None => (Ok tt, emit ev m)
  | Some e => (Raise e, m)
  end.

(** One statement after another: the second runs when the first does not
    raise. *)
Definition and_then {A B : Type} (p : machine -> result A * machine)
    (k : A -> machine -> result B * machine) (m : machine)
    : result B * machine :=
  match p m with
  | (Ok a, m') => k a m'
  | (Raise e, m') => (Raise e, m')
  end.

Notation "'run' x <- p ; k" := (and_then p (fun x => k))
  (at level 10, x name, p at level 100, k at level 200).

(** The [try] block of the handler from the reply on. *)
Definition show_reply (h : host) (text : string)
    : machine -> result unit * machine :=
  run _ <- st h (EvSuccess "Sentiment analysis completed!");
  run _ <- st h (EvWriteText "### Sentiment Analysis Result:");
  run _ <- st h (EvWriteText text);
  run sentiment_data <- (fun m => (parse_analysis_result text, m));
  run _ <- st h (EvWriteText "### Sentiment Distribution:");
  run chart <- (fun m => (generate_pie_chart (plt h) sentiment_data, m));
  st h (EvPyplot chart).

(** The [try] block of the handler. *)
Definition handler_try (srv : remote) (h : host) (fuel : nat)
    (temp_file_path : string) (m : machine)
    : option (result unit * machine) :=
  match analyze_sentiment srv fuel temp_file_path m with
  | None => None
  | Some (Raise e, m1) => Some (Raise e, m1)
  | Some (Ok text, m1) => Some (show_reply h text m1)
  end.

(** The [except] clause: an [Exception] is shown, anything else goes on
    to the caller. *)
Definition handler_except (h : host) (r : result unit) (m : machine)
    : result unit * machine :=
  match r with
  | Ok _ => (Ok tt, m)
  | Raise e => if is_Exception e then st h (EvError e) m else (Raise e, m)
  end.

(** [if uploaded_file: ...]: the file is saved; then the [try] block runs,
    the [except] clause after it, and the [finally] clause after both,
    whose exception, if it raises, is the one that goes on. [None] when
    the [try] block is still running after [fuel] passes of the poll
    loop. *)
Definition handle_upload (srv : remote) (h : host) (fuel : nat)
    (uploaded_file : UploadedFile) (m : machine)
    : option (result unit * machine) :=
  let temp_file_path := "temp_" +:+ upload_name uploaded_file in
  match save_upload h temp_file_path (upload_bytes uploaded_file) m with
  | (Raise e, m0) => Some (Raise e, m0)
  | (Ok _, m0) =>
      match handler_try srv h fuel temp_file_path m0 with
      | None => None
      | Some (r, m1) =>
          let '(r2, m2) := handler_except h r m1 in
          match os_remove temp_file_path m2 with
          | (Ok _, m3) => Some (r2, m3)
          | (Raise e, m3) => Some (Raise e, m3)
          end
      end
  end.

(** ** Vocabulary of the properties *)

Definition Positive : string := "Positive".
Definition Negative : string := "Negative".
Definition Neutral : string := "Neutral".

(** The lines of a text. *)
Definition lines_of (text : string) : list string := split LF text.

(** A text from its lines. *)
Fixpoint unlines (ls : list string) : string :=
  match ls with
  | [] => EmptyString
  | [l] => l
  | l :: ls' => l +:+ String LF (unlines ls')
  end.

(** The line contains one of the three label substrings. *)
Definition mentions_label (line : string) : bool :=
  contains Positive line || contains Negative line || contains Neutral line.

(** The label whose branch of the [if]/[elif] chain the line takes. *)
Definition branch_of (line : string) : option string :=
  if contains Positive line then Some Positive
  else if contains Negative line then Some Negative
  else if contains Neutral line then Some Neutral
  else None.

(** [s] is empty or made of whitespace only. *)
Fixpoint all_space (s : string) : bool :=
  match s with
  | EmptyString => true
  | String c s' => is_space c && all_space s'
  end.

(** [s] has no whitespace in it. *)
Fixpoint no_space (s : string) : bool :=
  match s with
  | EmptyString => true
  | String c s' => negb (is_space c) && no_space s'
  end.

(** [ls'] is [ls] with lines that mention no label inserted anywhere. *)
Inductive with_unrelated_lines : list string -> list string -> Prop :=
  | wul_nil : with_unrelated_lines [] []
  | wul_keep l ls ls' :
      with_unrelated_lines ls ls' -> with_unrelated_lines (l :: ls) (l :: ls')
  | wul_insert l ls ls' :
      mentions_label l = false ->
      with_unrelated_lines ls ls' -> with_unrelated_lines ls (l :: ls').

(** A malformed line: no colon, or no integer as the first
    whitespace-delimited token of the text between the first colon and the
    next, percent signs removed from that text. *)
Definition first_token_after_colon (line : string) : option string :=
  match split colon line with
  | _ :: segment :: _ => head (split_ws (remove_char percent (strip segment)))
  | _ => None
  end.

Definition is_integer (token : string) : bool :=
  match py_int token with
  | Ok _ => true
  | Raise _ => false
  end.

Definition malformed (line : string) : bool :=
  negb (contains ":" line)
  || match first_token_after_colon line with
     | Some token => negb (is_integer token)
     | None => true
     end.

(** A malformed line when the token is taken from all that follows the
    first colon: no colon, or the first whitespace-delimited token after
    the first colon is not an integer once its percent signs are
    removed. *)
Fixpoint after_first_colon (line : string) : option string :=
  match line with
  | EmptyString => None
  | String c line' =>
      if Ascii.eqb c colon then Some line' else after_first_colon line'
  end.

Definition malformed_as_worded (line : string) : bool :=
  match after_first_colon line with
  | None => true
  | Some rest =>
      match head (split_ws rest) with
      | None => true
      | Some token => negb (is_integer (remove_char percent token))
      end
  end.

(** The tally of the specification's example. *)
Definition tally_40_10_50 : dict :=
  [(Positive, 40); (Negative, 10); (Neutral, 50)].

(** The file tested by the [k]-th test of the poll loop's condition: the
    handle passed in, then the answers of the remote service, the first
    fetch being the [n0]-th of the run. *)
Fixpoint fetched (srv : remote) (file : File) (n0 : nat) (k : nat)
    : result File :=
  match k with
  | O => Ok file
  | S k' =>
      match fetched srv file n0 k' with
      | Ok f => get_file srv (n0 + k') (name f)
      | Raise e => Raise e
      end
  end.

(** The events of [k] passes through the body of the poll loop. *)
Fixpoint poll_events (srv : remote) (file : File) (n0 : nat) (k : nat)
    : list event :=
  match k with
  | O => []
  | S k' =>
      poll_events srv file n0 k' ++
      match fetched srv file n0 k' with
      | Ok f => [EvSleep 10; EvGetFile (name f)]
      | Raise _ => []
      end
  end.

Definition still_processing (r : result File) : bool :=
  match r with
  | Ok f => loop_condition f
  | Raise _ => false
  end.

(** The machine after [k] passes through the body of the poll loop. *)
Definition after_passes (srv : remote) (file : File) (k : nat) (m : machine)
    : machine :=
  {| disk := disk m;
     fetches := fetches m + k;
     clock := clock m + 10 * Z.of_nat k;
     trace := trace m ++ poll_events srv file (fetches m) k |}.

(** The handles given to a model session in a trace. *)
Fixpoint session_files (tr : list event) : list File :=
  match tr with
  | [] => []
  | EvStartChat _ f :: tr' => f :: session_files tr'
  | _ :: tr' => session_files tr'
  end.

Definition temp_path (uploaded_file : UploadedFile) : string :=
  "temp_" +:+ upload_name uploaded_file.

(** ** Sample replies of the model *)

Definition line_positive_40 : string := "Positive: 40%".
Definition line_negative_10 : string := "Negative: 10%".
Definition line_neutral_50 : string := "Neutral: 50%".

(** The three labelled lines and a sentence that mentions a label. *)
Definition reply_with_remark : string :=
  unlines [line_positive_40; line_negative_10; line_neutral_50;
           "Overall the reviews are mostly Positive."].

(** The three labelled lines, out of order, among lines that mention no
    label. *)
Definition reply_with_heading : string :=
  unlines ["Sentiment summary"; line_neutral_50; line_positive_40;
           "  "; line_negative_10; "Total: 100 reviews"; ""].

(** No line for the third label. *)
Definition reply_without_neutral : string :=
  unlines ["Positive: 70%"; "Negative: 20%"].

(** The first label on two lines. *)
Definition reply_with_revision : string :=
  unlines ["Positive: 40%"; "Negative: 10%"; "Positive: 45% (revised)";
           "Neutral: 50%"].

(** The labels listed with the second one first. *)
Definition reply_negative_first : string :=
  unlines ["Negative: 10%"; "Positive: 40%"; "Neutral: 50%"].

(** A line that mentions two labels. *)
Definition reply_with_comparison : string :=
  unlines ["Positive versus Negative: 40%"; "Negative or Neutral: 10%";
           "Neutral: 50%"].

(** A labelled line with a decimal fraction among three good lines. *)
Definition reply_with_fraction : string :=
  unlines ["Positive: 40%"; "Negative: 10%"; "Neutral: 50%";
           "Neutral: 49.5%"].

(** A reply with a negative percentage. *)
Definition reply_with_negative : string :=
  unlines ["Positive: -40%"; "Negative: 10%"; "Neutral: 50%"].

(** A reply whose first labelled line has a second colon. *)
Definition reply_with_ratio : string :=
  unlines ["Positive: 40:30"; "Negative: 10%"; "Neutral: 50%"].

(** ** Sample remote services and uploads *)

Definition handle (s : file_state) : File :=
  {| name := "files/reviews"; state := s |}.

(** The file is [ACTIVE] from the [k]-th fetch on, and the model answers
    [reply]. *)
Definition srv_ready_after (k : nat) (reply : string) : remote :=
  {| upload_file := fun _ _ => Ok (handle PROCESSING);
     get_file := fun n file_name =>
       Ok {| name := file_name;
             state := if (S n <? k)%nat then PROCESSING else ACTIVE |};
     send_message := fun _ _ => Ok reply |}.

(** The file stays [PROCESSING]. *)
Definition srv_stuck : remote :=
  {| upload_file := fun _ _ => Ok (handle PROCESSING);
     get_file := fun _ file_name =>
       Ok {| name := file_name; state := PROCESSING |};
     send_message := fun _ _ => Ok EmptyString |}.

(** The processing of the file fails. *)
Definition srv_failing : remote :=
  {| upload_file := fun _ _ => Ok (handle PROCESSING);
     get_file := fun _ file_name => Ok {| name := file_name; state := FAILED |};
     send_message := fun _ _ => Ok EmptyString |}.

(** The upload is refused. *)
Definition srv_unreachable : remote :=
  {| upload_file := fun _ _ => Raise (RemoteError "503 Service Unavailable");
     get_file := fun _ _ => Raise (RemoteError "503 Service Unavailable");
     send_message := fun _ _ => Raise (RemoteError "503 Service Unavailable") |}.

Definition reviews_csv : UploadedFile :=
  {| upload_name := "reviews.csv";
     upload_bytes := "review" +:+ String LF "great product" |}.

(** A machine with an empty disk and nothing done yet. *)
Definition fresh : machine :=
  {| disk := ∅; fetches := 0; clock := 0; trace := [] |}.


(** ** Sample hosts *)

(** Nothing fails on the local side. *)
Definition quiet : host :=
  {| plt := {| float32_sizes := fun _ => None |};
     save_file := fun _ _ => Saved;
     display := fun _ _ => None |}.


(** The page fails to render a figure. *)
Definition host_no_figures : host :=
  {| plt := {| float32_sizes := fun _ => None |};
     save_file := fun _ _ => Saved;
     display := fun _ ev =>
       match ev with
       | EvPyplot _ => Some (HostError "RuntimeError" "no renderer")
       | _ => None
       end |}.

(** ** Vocabulary of the further properties *)

(** [line'] is [line] with whitespace before and after it. *)
Definition padded (line line' : string) : Prop :=
  exists w1 w2, all_space w1 = true /\ all_space w2 = true
                /\ line' = w1 +:+ line +:+ w2.

(** The keys of a [dict] after [d[k] = ...]: a new key goes last. *)
Definition add_key (ks : list string) (k : string) : list string :=
  if existsb (String.eqb k) ks then ks else ks ++ [k].

(** The labels of the branches taken by the lines of a text, each at its
    first occurrence. *)
Definition label_order (text : string) : list string :=
  fold_left add_key (omap branch_of (lines_of text)) [].

(** The three labels. *)
Definition is_label (k : string) : Prop :=
  k = Positive \/ k = Negative \/ k = Neutral.

(** Every line that mentions a label yields a number. *)
Definition label_lines_well_formed (ls : list string) : Prop :=
  forall line, In line ls -> mentions_label line = true ->
               malformed line = false.

(** A reply with the line feeds preceded by carriage returns. *)
Definition reply_crlf : string :=
  unlines ["Positive: 40%" +:+ String (ascii_of_nat 13) EmptyString;
           "  Negative: 10%" +:+ String (ascii_of_nat 13) EmptyString;
           "Neutral: 50%"].

(** A reply whose second line has no colon and whose third has no
    number. *)
Definition reply_two_bad_lines : string :=
  unlines ["Positive: 40%"; "Negative 10%"; "Neutral: n/a"].


(** [c in s] for a character [c]. *)
Fixpoint has_char (c : ascii) (s : string) : bool :=
  match s with
  | EmptyString => false
  | String a s' => Ascii.eqb a c || has_char c s'
  end.

(** The line [<label>: <token>%]. *)
Definition labelled (label token : string) : string :=
  label +:+ String colon (String " " (token +:+ "%")).


(** * Properties *)

#[local] Arguments String.append !_ _ / : simpl nomatch.

(** ** Strings *)

Section StringFacts.

Implicit Types (s t w needle : string) (c sep : ascii).

Lemma append_nil_r s : s +:+ EmptyString = s.
Proof. induction s as [|c s IH]; simpl; [reflexivity | now rewrite IH]. Qed.

Lemma append_assoc s t w : (s +:+ t) +:+ w = s +:+ (t +:+ w).
Proof. induction s as [|c s IH]; simpl; [reflexivity | now rewrite IH]. Qed.

Lemma all_space_app s t :
  all_space (s +:+ t) = all_space s && all_space t.
Proof.
  induction s as [|c s IH]; simpl; [reflexivity |].
  rewrite IH. now rewrite andb_assoc.
Qed.

Lemma space_neq c c' : is_space c = true -> is_space c' = false -> Ascii.eqb c' c = false.
Proof.
  intros Hc Hc'. apply Ascii.eqb_neq. intros ->. congruence.
Qed.

(** *** [split] *)

Lemma split_not_nil sep s : split sep s <> [].
Proof.
  destruct s as [|c s]; simpl; [discriminate |].
  destruct (Ascii.eqb c sep); [discriminate |].
  destruct (split sep s); discriminate.
Qed.

Lemma split_cons_other sep c s :
  Ascii.eqb c sep = false ->
  split sep (String c s) =
  String c (hd EmptyString (split sep s)) :: tl (split sep s).
Proof.
  intros Hc. simpl. rewrite Hc.
  pose proof (split_not_nil sep s) as Hne.
  destruct (split sep s); [contradiction | reflexivity].
Qed.

Lemma split_cons_sep sep c s :
  Ascii.eqb c sep = true ->
  split sep (String c s) = EmptyString :: split sep s.
Proof. intros Hc. simpl. now rewrite Hc. Qed.

(** Splitting a concatenation: the last segment of the left part and the
    first segment of the right part are one segment. *)
Lemma split_app sep s t :
  split sep (s +:+ t) =
  removelast (split sep s)
  ++ (List.last (split sep s) EmptyString +:+ hd EmptyString (split sep t))
     :: tl (split sep t).
Proof.
  induction s as [|c s IH].
  - simpl. pose proof (split_not_nil sep t).
    destruct (split sep t); [contradiction | reflexivity].
  - change (String c s +:+ t) with (String c (s +:+ t)).
    pose proof (split_not_nil sep s) as Hne.
    destruct (Ascii.eqb c sep) eqn:Hc.
    + rewrite !split_cons_sep by assumption. rewrite IH.
      destruct (split sep s) as [|seg segs]; [contradiction |].
      reflexivity.
    + rewrite !split_cons_other by assumption. rewrite IH.
      destruct (split sep s) as [|seg segs]; [contradiction |].
      destruct segs as [|seg' segs]; reflexivity.
Qed.

Lemma split_no_sep sep s :
  (forall c, is_space c = true -> Ascii.eqb c sep = false) ->
  all_space s = true -> split sep s = [s].
Proof.
  intros Hsep. induction s as [|c s IH]; simpl; [reflexivity |].
  intros [Hc Hs]%andb_true_iff.
  rewrite (Hsep c Hc), (IH Hs). reflexivity.
Qed.

Lemma split_all_space sep s :
  all_space s = true ->
  Forall (fun seg => all_space seg = true) (split sep s).
Proof.
  induction s as [|c s IH]; simpl.
  - intros _. repeat constructor.
  - intros [Hc Hs]%andb_true_iff. specialize (IH Hs).
    destruct (Ascii.eqb c sep).
    + constructor; [reflexivity | assumption].
    + destruct (split sep s) as [|seg segs]; [repeat constructor; simpl; now rewrite Hc |].
      inversion IH; subst. constructor; [simpl; now rewrite Hc | assumption].
Qed.

(** *** [strip] *)

Lemma lstrip_all_space s : all_space s = true -> lstrip s = EmptyString.
Proof.
  induction s as [|c s IH]; simpl; [reflexivity |].
  intros [Hc Hs]%andb_true_iff. rewrite Hc. auto.
Qed.

Lemma rstrip_all_space s : all_space s = true -> rstrip s = EmptyString.
Proof.
  induction s as [|c s IH]; simpl; [reflexivity |].
  intros [Hc Hs]%andb_true_iff. rewrite (IH Hs), Hc. reflexivity.
Qed.

Lemma lstrip_app s w :
  all_space s = false -> lstrip (s +:+ w) = lstrip s +:+ w.
Proof.
  induction s as [|c s IH]; simpl; [discriminate |].
  destruct (is_space c); simpl; [assumption | reflexivity].
Qed.

Lemma rstrip_app_space s w :
  all_space w = true -> rstrip (s +:+ w) = rstrip s.
Proof.
  intros Hw. induction s as [|c s IH]; simpl.
  - now apply rstrip_all_space.
  - now rewrite IH.
Qed.

Lemma strip_app_space s w :
  all_space w = true -> strip (s +:+ w) = strip s.
Proof.
  intros Hw. unfold strip. destruct (all_space s) eqn:Hs.
  - rewrite !lstrip_all_space; [reflexivity | assumption |].
    rewrite all_space_app, Hs, Hw. reflexivity.
  - rewrite lstrip_app by assumption. now apply rstrip_app_space.
Qed.

(** What [lstrip] and [rstrip] take away is whitespace. *)
Lemma lstrip_decompose s :
  exists w, all_space w = true /\ s = w +:+ lstrip s.
Proof.
  induction s as [|c s (w & Hw & IH)]; simpl.
  - exists EmptyString. split; reflexivity.
  - destruct (is_space c) eqn:Hc.
    + exists (String c w). simpl. rewrite Hc, Hw. split; [reflexivity |].
      now rewrite <- IH.
    + exists EmptyString. split; reflexivity.
Qed.

Lemma rstrip_decompose s :
  exists w, all_space w = true /\ s = rstrip s +:+ w.
Proof.
  induction s as [|c s (w & Hw & IH)]; simpl.
  - exists EmptyString. split; reflexivity.
  - destruct (rstrip s) as [|c' r] eqn:Hr.
    + simpl in IH. subst s. destruct (is_space c) eqn:Hc.
      * exists (String c w). simpl. rewrite Hc, Hw. split; reflexivity.
      * exists w. split; [assumption | reflexivity].
    + exists w. split; [assumption |]. simpl. now rewrite IH at 1.
Qed.

End StringFacts.

(** *** [in] *)

Section ContainsFacts.

Implicit Types (s t w needle : string) (c : ascii).

Lemma is_prefix_app_space needle s w :
  no_space needle = true -> all_space w = true ->
  is_prefix needle (s +:+ w) = is_prefix needle s.
Proof.
  intros Hn Hw. revert s.
  induction needle as [|a needle IH]; intros s; [now destruct s |].
  simpl in Hn. apply andb_true_iff in Hn as [Ha%negb_true_iff Hn].
  destruct s as [|b s]; simpl.
  - destruct w as [|b w]; [reflexivity |].
    simpl in Hw. apply andb_true_iff in Hw as [Hb _].
    simpl. now rewrite (space_neq b a).
  - now rewrite IH.
Qed.

Lemma contains_all_space needle w :
  no_space needle = true -> all_space w = true ->
  contains needle w = contains needle EmptyString.
Proof.
  intros Hn. induction w as [|b w IH]; [reflexivity |].
  intros [Hb Hw]%andb_true_iff.
  change (contains needle (String b w))
    with (is_prefix needle (String b w) || contains needle w).
  rewrite (IH Hw). destruct needle as [|a needle]; [reflexivity |].
  simpl in Hn. apply andb_true_iff in Hn as [Ha%negb_true_iff _].
  simpl. now rewrite (space_neq b a).
Qed.

Lemma contains_app_space needle s w :
  no_space needle = true -> all_space w = true ->
  contains needle (s +:+ w) = contains needle s.
Proof.
  intros Hn Hw. induction s as [|c s IH].
  - now apply contains_all_space.
  - change (String c s +:+ w) with (String c (s +:+ w)).
    change (contains needle (String c (s +:+ w)))
      with (is_prefix needle (String c s +:+ w) || contains needle (s +:+ w)).
    rewrite is_prefix_app_space by assumption. now rewrite IH.
Qed.

Lemma contains_cons_space needle c s :
  no_space needle = true -> needle <> EmptyString -> is_space c = true ->
  contains needle (String c s) = contains needle s.
Proof.
  intros Hn Hne Hc. destruct needle as [|a needle]; [contradiction |].
  simpl in Hn. apply andb_true_iff in Hn as [Ha%negb_true_iff _].
  change (contains (String a needle) (String c s))
    with (Ascii.eqb a c && is_prefix needle s || contains (String a needle) s).
  now rewrite (space_neq c a).
Qed.

Lemma contains_space_app needle w s :
  no_space needle = true -> needle <> EmptyString -> all_space w = true ->
  contains needle (w +:+ s) = contains needle s.
Proof.
  intros Hn Hne. induction w as [|c w IH]; [reflexivity |].
  intros [Hc Hw]%andb_true_iff.
  change (String c w +:+ s) with (String c (w +:+ s)).
  rewrite contains_cons_space by assumption. auto.
Qed.

(** A needle found in a segment of [s] is found in [s]. *)
Lemma is_prefix_app needle s t :
  is_prefix needle s = true -> is_prefix needle (s +:+ t) = true.
Proof.
  revert s. induction needle as [|a needle IH]; intros s; [reflexivity |].
  destruct s as [|b s]; simpl; [discriminate |].
  intros [-> H]%andb_true_iff. simpl. auto.
Qed.

Lemma contains_app_l needle s t :
  contains needle s = true -> contains needle (s +:+ t) = true.
Proof.
  induction s as [|c s IH].
  - simpl. rewrite orb_false_r. destruct needle; [|discriminate].
    intros _. now destruct t.
  - change (String c s +:+ t) with (String c (s +:+ t)).
    change (contains needle (String c s))
      with (is_prefix needle (String c s) || contains needle s).
    change (contains needle (String c (s +:+ t)))
      with (is_prefix needle (String c s +:+ t) || contains needle (s +:+ t)).
    intros [H | H]%orb_true_iff.
    + now rewrite is_prefix_app.
    + rewrite IH by assumption. apply orb_true_r.
Qed.

Lemma split_head_prefix sep s :
  exists rest, s = hd EmptyString (split sep s) +:+ rest.
Proof.
  induction s as [|c s [rest IH]].
  - exists EmptyString. reflexivity.
  - destruct (Ascii.eqb c sep) eqn:Hc.
    + rewrite split_cons_sep by assumption. now exists (String c s).
    + rewrite split_cons_other by assumption. exists rest. simpl. now rewrite <- IH.
Qed.

Lemma contains_split sep needle line s :
  In line (split sep s) -> contains needle line = true ->
  contains needle s = true.
Proof.
  revert line. induction s as [|c s IH]; intros line.
  - simpl. intros [<- | []]. auto.
  - change (contains needle (String c s))
      with (is_prefix needle (String c s) || contains needle s).
    destruct (Ascii.eqb c sep) eqn:Hc.
    + rewrite split_cons_sep by assumption. intros [<- | Hin] H.
      * simpl in H. rewrite orb_false_r in H.
        destruct needle; [reflexivity | discriminate].
      * rewrite (IH line) by assumption. apply orb_true_r.
    + rewrite split_cons_other by assumption.
      pose proof (split_not_nil sep s) as Hne.
      destruct (split_head_prefix sep s) as [rest Hrest].
      destruct (split sep s) as [|seg segs] eqn:Hs; [contradiction |].
      simpl in *. intros [<- | Hin] H.
      * change (contains needle (String c seg))
          with (is_prefix needle (String c seg) || contains needle seg) in H.
        apply orb_true_iff in H as [H | H].
        -- rewrite Hrest.
           change (String c (seg +:+ rest)) with (String c seg +:+ rest).
           now rewrite is_prefix_app.
        -- rewrite (IH seg) by auto. apply orb_true_r.
      * rewrite (IH line) by auto. apply orb_true_r.
Qed.

End ContainsFacts.

(** ** The tally *)

Section DictFacts.

Implicit Types (d : dict) (k : string) (v : Z).

Lemma getitem_setitem_eq k v d : getitem k (setitem k v d) = Some v.
Proof.
  induction d as [|[k' v'] d IH]; simpl.
  - now rewrite String.eqb_refl.
  - destruct (String.eqb k' k) eqn:Hk; simpl; now rewrite Hk.
Qed.

Lemma getitem_setitem_ne k k' v d :
  k <> k' -> getitem k' (setitem k v d) = getitem k' d.
Proof.
  intros Hne. induction d as [|[k0 v0] d IH]; simpl.
  - apply String.eqb_neq in Hne. now rewrite Hne.
  - destruct (String.eqb k0 k) eqn:Hk; simpl; [|now rewrite IH].
    apply String.eqb_eq in Hk. subst k0.
    apply String.eqb_neq in Hne. now rewrite Hne.
Qed.

Lemma getitem_In_keys k d : getitem k d <> None <-> In k (keys d).
Proof.
  induction d as [|[k' v'] d IH]; simpl; [tauto |].
  destruct (String.eqb_spec k' k); [split; [auto | discriminate] |].
  rewrite IH. tauto.
Qed.

Lemma keys_setitem k v d :
  keys (setitem k v d) =
  match getitem k d with
  | Some _ => keys d
  | None => keys d ++ [k]
  end.
Proof.
  induction d as [|[k' v'] d IH]; simpl; [reflexivity |].
  destruct (String.eqb k' k); simpl; [reflexivity |].
  rewrite IH. now destruct (getitem k d).
Qed.

Lemma In_keys_setitem k k' v d :
  In k' (keys (setitem k v d)) <-> k' = k \/ In k' (keys d).
Proof.
  rewrite keys_setitem. destruct (getitem k d) eqn:Hg.
  - split; [auto |]. intros [-> | H]; [|assumption].
    apply getitem_In_keys. congruence.
  - rewrite in_app_iff. simpl. intuition.
Qed.

Lemma NoDup_keys_setitem k v d :
  NoDup (keys d) -> NoDup (keys (setitem k v d)).
Proof.
  intros Hd. rewrite keys_setitem. destruct (getitem k d) eqn:Hg; [assumption |].
  apply NoDup_app. split; [assumption |]. split; [|repeat constructor; inversion 1].
  intros x Hx [-> | []]%list_elem_of_In.
  apply list_elem_of_In, getitem_In_keys in Hx. contradiction.
Qed.

(** A tally whose keys are the three labels, each once, has three
    entries. *)
Lemma len_three_labels d :
  NoDup (keys d) ->
  (forall k, In k (keys d) <-> k = Positive \/ k = Negative \/ k = Neutral) ->
  len d = 3%nat.
Proof.
  intros Hnd Hkeys. unfold len. rewrite <- (length_map fst d).
  change (map fst d) with (keys d).
  assert (Hperm : keys d ≡ₚ [Positive; Negative; Neutral]).
  { apply NoDup_Permutation; [assumption | |].
    - compute_done.
    - intros k. rewrite !list_elem_of_In, Hkeys. simpl. intuition. }
  now rewrite Hperm.
Qed.

End DictFacts.

(** ** The parser, line by line *)

Section LineFacts.

Implicit Types (d : dict) (line w : string) (c : ascii).

Lemma scan_line_branch d line :
  scan_line d line =
  match branch_of line with
  | Some label => do v <- extract_percentage line; Ok (setitem label v d)
  | None => Ok d
  end.
Proof.
  unfold scan_line, branch_of, Positive, Negative, Neutral.
  destruct (contains "Positive" line); [reflexivity |].
  destruct (contains "Negative" line); [reflexivity |].
  destruct (contains "Neutral" line); reflexivity.
Qed.

Lemma branch_of_None line : branch_of line = None <-> mentions_label line = false.
Proof.
  unfold branch_of, mentions_label.
  destruct (contains Positive line), (contains Negative line),
    (contains Neutral line); simpl; split; congruence.
Qed.

Lemma branch_of_label line label :
  branch_of line = Some label ->
  (label = Positive \/ label = Negative \/ label = Neutral)
  /\ contains label line = true.
Proof.
  unfold branch_of.
  destruct (contains Positive line) eqn:Hp;
    [intros [= <-]; auto |].
  destruct (contains Negative line) eqn:Hn;
    [intros [= <-]; auto |].
  destruct (contains Neutral line) eqn:Hu;
    [intros [= <-]; auto | discriminate].
Qed.

Lemma scan_line_unrelated d line :
  mentions_label line = false -> scan_line d line = Ok d.
Proof.
  intros H%branch_of_None. now rewrite scan_line_branch, H.
Qed.

(** Whitespace around a line changes neither its branch nor the number
    read from it. *)
Lemma branch_of_space_app w line :
  all_space w = true -> branch_of (w +:+ line) = branch_of line.
Proof.
  intros Hw. unfold branch_of.
  now rewrite !contains_space_app by (assumption || reflexivity || discriminate).
Qed.

Lemma branch_of_app_space line w :
  all_space w = true -> branch_of (line +:+ w) = branch_of line.
Proof.
  intros Hw. unfold branch_of.
  now rewrite !contains_app_space by (assumption || reflexivity).
Qed.

Lemma branch_of_all_space w : all_space w = true -> branch_of w = None.
Proof.
  intros Hw. rewrite <- (append_nil_r w).
  now rewrite branch_of_space_app.
Qed.

Lemma extract_cons_space c line :
  is_space c = true ->
  extract_percentage (String c line) = extract_percentage line.
Proof.
  intros Hc. unfold extract_percentage.
  rewrite split_cons_other by (apply (space_neq c colon); [assumption | reflexivity]).
  pose proof (split_not_nil colon line) as Hne.
  destruct (split colon line) as [|seg segs]; [contradiction | reflexivity].
Qed.

Lemma extract_space_app w line :
  all_space w = true ->
  extract_percentage (w +:+ line) = extract_percentage line.
Proof.
  induction w as [|c w IH]; [reflexivity |].
  intros [Hc Hw]%andb_true_iff.
  change (String c w +:+ line) with (String c (w +:+ line)).
  rewrite extract_cons_space by assumption. auto.
Qed.

Lemma extract_app_space line w :
  all_space w = true ->
  extract_percentage (line +:+ w) = extract_percentage line.
Proof.
  intros Hw. unfold extract_percentage. rewrite split_app.
  rewrite (split_no_sep colon w); [|intros c Hc; now apply (space_neq c colon) | assumption].
  pose proof (split_not_nil colon line) as Hne. simpl.
  destruct (split colon line) as [|s0 [|s1 [|s2 segs]]]; [contradiction | reflexivity | |].
  - simpl. now rewrite strip_app_space.
  - reflexivity.
Qed.

Lemma scan_line_space_app d w line :
  all_space w = true -> scan_line d (w +:+ line) = scan_line d line.
Proof.
  intros Hw.
  now rewrite !scan_line_branch, branch_of_space_app, extract_space_app.
Qed.

Lemma scan_line_app_space d line w :
  all_space w = true -> scan_line d (line +:+ w) = scan_line d line.
Proof.
  intros Hw.
  now rewrite !scan_line_branch, branch_of_app_space, extract_app_space.
Qed.

End LineFacts.

(** ** The parser, over the lines of a text *)

Section ScanFacts.

Implicit Types (d : dict) (line : string) (ls : list string).

Lemma bind_Ok_r {A : Type} (m : result A) : bind m Ok = m.
Proof. now destruct m. Qed.

Lemma scan_lines_app d ls1 ls2 :
  scan_lines d (ls1 ++ ls2) =
  do d' <- scan_lines d ls1; scan_lines d' ls2.
Proof.
  revert d. induction ls1 as [|l ls1 IH]; intros d; simpl; [reflexivity |].
  destruct (scan_line d l); simpl; auto.
Qed.

Lemma scan_lines_unrelated d ls :
  Forall (fun l => mentions_label l = false) ls -> scan_lines d ls = Ok d.
Proof.
  induction 1 as [|l ls Hl _ IH]; simpl; [reflexivity |].
  now rewrite scan_line_unrelated.
Qed.

Lemma scan_lines_all_space d ls :
  Forall (fun l => all_space l = true) ls -> scan_lines d ls = Ok d.
Proof.
  intros H. apply scan_lines_unrelated.
  eapply Forall_impl; [exact H |].
  intros l Hl. now apply branch_of_None, branch_of_all_space.
Qed.

Lemma scan_lines_split_app_space d s w :
  all_space w = true ->
  scan_lines d (split LF (s +:+ w)) = scan_lines d (split LF s).
Proof.
  intros Hw. rewrite split_app.
  pose proof (split_all_space LF w Hw) as HW.
  pose proof (split_not_nil LF w) as HWne.
  destruct (split LF w) as [|w0 ws]; [contradiction |].
  inversion HW as [|? ? Hw0 Hws]; subst. simpl hd. simpl tl.
  rewrite (app_removelast_last EmptyString (split_not_nil LF s)) at 3.
  rewrite !scan_lines_app. destruct (scan_lines d _) as [d'|e]; simpl; [|reflexivity].
  rewrite scan_line_app_space by assumption.
  destruct (scan_line d' _) as [d''|e]; simpl; [|reflexivity].
  now apply scan_lines_all_space.
Qed.

Lemma scan_lines_split_space_app d w s :
  all_space w = true ->
  scan_lines d (split LF (w +:+ s)) = scan_lines d (split LF s).
Proof.
  intros Hw. rewrite split_app.
  pose proof (split_all_space LF w Hw) as HW.
  rewrite (app_removelast_last EmptyString (split_not_nil LF w)) in HW.
  apply Forall_app in HW as [HW1 HW2]. inversion HW2 as [|? ? Hlast _]; subst.
  rewrite scan_lines_app, scan_lines_all_space by assumption. simpl.
  rewrite scan_line_space_app by assumption.
  pose proof (split_not_nil LF s) as Hne.
  destruct (split LF s); [contradiction | reflexivity].
Qed.

(** The [strip] of the whole text makes no difference to the scan. *)
Lemma scan_lines_strip d text :
  scan_lines d (split LF (strip text)) = scan_lines d (lines_of text).
Proof.
  unfold strip, lines_of.
  destruct (lstrip_decompose text) as (w1 & Hw1 & H1).
  destruct (rstrip_decompose (lstrip text)) as (w2 & Hw2 & H2).
  rewrite H1 at 2. rewrite scan_lines_split_space_app by assumption.
  rewrite H2 at 2. now rewrite scan_lines_split_app_space.
Qed.

Lemma parse_try_lines text :
  parse_try text =
  do sentiment_data <- scan_lines [] (lines_of text);
  if negb (Nat.eqb (len sentiment_data) 3)
  then Raise ValueError_incomplete_sentiment_data
  else Ok sentiment_data.
Proof. unfold parse_try. now rewrite scan_lines_strip. Qed.

End ScanFacts.

Section TallyFacts.

Implicit Types (d : dict) (line label : string) (ls : list string).

Lemma scan_line_Ok d line d' :
  scan_line d line = Ok d' ->
  (branch_of line = None /\ d' = d)
  \/ exists label v, branch_of line = Some label
       /\ extract_percentage line = Ok v /\ d' = setitem label v d.
Proof.
  rewrite scan_line_branch. destruct (branch_of line) as [label|].
  - destruct (extract_percentage line) as [v|e]; simpl; [|discriminate].
    intros [= <-]. right. eauto.
  - intros [= <-]. auto.
Qed.

(** The keys of the tally after a scan: those it had, and the labels of
    the branches taken. *)
Lemma scan_lines_keys ls d d' :
  scan_lines d ls = Ok d' ->
  (NoDup (keys d) -> NoDup (keys d'))
  /\ forall k, In k (keys d') <->
       In k (keys d) \/ exists line, In line ls /\ branch_of line = Some k.
Proof.
  revert d. induction ls as [|l ls IH]; intros d; simpl.
  - intros [= <-]. split; [auto |]. intros k. split; [auto |].
    intros [H | (line & [] & _)]. assumption.
  - destruct (scan_line d l) as [d1|e] eqn:Hl; simpl; [|discriminate].
    intros Hls. destruct (IH _ Hls) as [IHnd IHk].
    apply scan_line_Ok in Hl as [[Hb ->] | (label & v & Hb & Hv & ->)].
    + split; [assumption |]. intros k. rewrite IHk. split.
      * intros [H | (line & Hin & H)]; [auto | right; eauto].
      * intros [H | (line & [<- | Hin] & H)]; [auto | congruence | right; eauto].
    + split; [intros; apply IHnd; now apply NoDup_keys_setitem |].
      intros k. rewrite IHk, In_keys_setitem. split.
      * intros [[-> | H] | (line & Hin & H)]; [right; eauto | auto | right; eauto].
      * intros [H | (line & [<- | Hin] & H)]; [auto | | right; eauto].
        left. left. congruence.
Qed.

(** Every value of the tally after a scan was there before or was read
    from a line that took the branch of its label. *)
Lemma scan_lines_values ls d d' k v :
  scan_lines d ls = Ok d' -> getitem k d' = Some v ->
  getitem k d = Some v
  \/ exists line, In line ls /\ branch_of line = Some k
       /\ extract_percentage line = Ok v.
Proof.
  revert d. induction ls as [|l ls IH]; intros d; simpl.
  - intros [= <-]. auto.
  - destruct (scan_line d l) as [d1|e] eqn:Hl; simpl; [|discriminate].
    intros Hls Hg. destruct (IH _ Hls Hg) as [H | (line & Hin & H)];
      [|right; eauto].
    apply scan_line_Ok in Hl as [[Hb ->] | (label & v' & Hb & Hv & ->)];
      [auto |].
    destruct (String.eqb_spec label k) as [-> | Hne].
    + rewrite getitem_setitem_eq in H. injection H as ->. right. eauto.
    + rewrite getitem_setitem_ne in H by assumption. auto.
Qed.

(** The value of a label after a scan is the one read from the last line
    that took its branch. *)
Lemma scan_lines_last before line after d d' label :
  scan_lines d (before ++ line :: after) = Ok d' ->
  branch_of line = Some label ->
  (forall l, In l after -> branch_of l <> Some label) ->
  exists v, extract_percentage line = Ok v /\ getitem label d' = Some v.
Proof.
  rewrite scan_lines_app. destruct (scan_lines d before) as [d0|e]; simpl; [|discriminate].
  destruct (scan_line d0 line) as [d1|e] eqn:Hl; simpl; [|discriminate].
  intros Hafter Hb Hlater.
  apply scan_line_Ok in Hl as [[Hb' _] | (label' & v & Hb' & Hv & ->)];
    [congruence |].
  assert (label' = label) as -> by congruence.
  exists v. split; [assumption |].
  assert (Hg : getitem label (setitem label v d0) = Some v)
    by apply getitem_setitem_eq.
  revert Hafter Hg Hlater. generalize (setitem label v d0).
  induction after as [|l after IH]; intros d1; simpl.
  - now intros [= <-].
  - destruct (scan_line d1 l) as [d2|e] eqn:Hl; simpl; [|discriminate].
    intros Hafter Hg Hlater. apply (IH d2); [assumption | | auto].
    apply scan_line_Ok in Hl as [[_ ->] | (label' & v' & Hbl & _ & ->)];
      [assumption |].
    rewrite getitem_setitem_ne; [assumption |].
    intros ->. now apply (Hlater l); [left |].
Qed.

(** The scan goes through when every line that mentions a label yields a
    number. *)
Lemma scan_lines_succeeds ls d :
  (forall l, In l ls -> mentions_label l = false
                        \/ exists v, extract_percentage l = Ok v) ->
  exists d', scan_lines d ls = Ok d'.
Proof.
  revert d. induction ls as [|l ls IH]; intros d Hls; simpl; [eauto |].
  assert (Hl : exists d1, scan_line d l = Ok d1).
  { destruct (Hls l) as [H | [v H]]; [now left | |].
    - rewrite scan_line_unrelated by assumption. eauto.
    - rewrite scan_line_branch, H. destruct (branch_of l); simpl; eauto. }
  destruct Hl as [d1 ->]. simpl. apply IH. intros l' Hl'. apply Hls. now right.
Qed.

(** A scan that raises does so on a line that mentions a label, with the
    exception of reading the number from it. *)
Lemma scan_lines_Raise ls d e :
  scan_lines d ls = Raise e ->
  exists line, In line ls /\ mentions_label line = true
               /\ extract_percentage line = Raise e.
Proof.
  revert d. induction ls as [|l ls IH]; intros d; simpl; [discriminate |].
  destruct (scan_line d l) as [d1|e1] eqn:Hl; simpl.
  - intros (line & Hin & H)%IH. eauto.
  - intros [= ->]. exists l. split; [now left |].
    rewrite scan_line_branch in Hl.
    destruct (branch_of l) eqn:Hb; [|discriminate].
    split.
    + destruct (mentions_label l) eqn:Hm; [reflexivity |].
      apply branch_of_None in Hm. congruence.
    + destruct (extract_percentage l); [discriminate |].
      simpl in Hl. congruence.
Qed.

(** The scan stops at the first line that mentions a label and yields no
    number. *)
Lemma scan_lines_fails ls d line e :
  In line ls -> mentions_label line = true ->
  extract_percentage line = Raise e ->
  exists e', scan_lines d ls = Raise e'.
Proof.
  revert d. induction ls as [|l ls IH]; intros d; simpl; [contradiction |].
  intros Hin Hm He. destruct (scan_line d l) as [d1|e1] eqn:Hl; simpl; [|eauto].
  destruct Hin as [-> | Hin]; [|eauto].
  rewrite scan_line_branch, He in Hl.
  destruct (branch_of line) eqn:Hb; [discriminate |].
  apply branch_of_None in Hb. congruence.
Qed.

Lemma getitem_In d k v : NoDup (keys d) -> In (k, v) d -> getitem k d = Some v.
Proof.
  induction d as [|[k' v'] d IH]; simpl; [contradiction |].
  intros Hnd. apply NoDup_cons in Hnd as [Hk' Hnd].
  intros [[= -> ->] | Hin]; [now rewrite String.eqb_refl |].
  destruct (String.eqb_spec k' k) as [-> | Hne]; [|auto].
  exfalso. apply Hk', list_elem_of_In. unfold keys in *.
  change k with (fst (k, v)). now apply in_map.
Qed.

End TallyFacts.

(** ** parse_analysis_result: the claims *)

Section ParserClaims.

Implicit Types (d : dict) (text line label : string) (ls : list string).

Lemma parse_analysis_result_try text :
  parse_analysis_result text =
  match parse_try text with
  | Ok d => Ok d
  | Raise cause => Raise (ValueError_failed_to_parse cause)
  end.
Proof. reflexivity. Qed.

Lemma parse_try_Ok text d :
  parse_try text = Ok d ->
  scan_lines [] (lines_of text) = Ok d /\ len d = 3%nat.
Proof.
  rewrite parse_try_lines.
  destruct (scan_lines [] (lines_of text)) as [d'|e]; simpl; [|discriminate].
  destruct (Nat.eqb_spec (len d') 3); simpl; [|discriminate].
  now intros [= <-].
Qed.

Lemma parse_analysis_result_Ok text d :
  parse_analysis_result text = Ok d ->
  scan_lines [] (lines_of text) = Ok d /\ len d = 3%nat.
Proof.
  rewrite parse_analysis_result_try.
  destruct (parse_try text) eqn:H; [|discriminate].
  intros [= <-]. now apply parse_try_Ok.
Qed.

Example parse_reply_with_heading :
  parse_analysis_result reply_with_heading
  = Ok [(Neutral, 50); (Positive, 40); (Negative, 10)].
Proof. reflexivity. Qed.

Example parse_reply_without_neutral :
  parse_analysis_result reply_without_neutral
  = Raise (ValueError_failed_to_parse ValueError_incomplete_sentiment_data).
Proof. reflexivity. Qed.

Example parse_reply_with_revision :
  parse_analysis_result reply_with_revision
  = Ok [(Positive, 45); (Negative, 10); (Neutral, 50)].
Proof. reflexivity. Qed.

Example parse_reply_with_comparison :
  parse_analysis_result reply_with_comparison
  = Ok [(Positive, 40); (Negative, 10); (Neutral, 50)].
Proof. reflexivity. Qed.

Example parse_reply_with_fraction :
  parse_analysis_result reply_with_fraction
  = Raise (ValueError_failed_to_parse (ValueError_invalid_literal "49.5")).
Proof. reflexivity. Qed.

(** C1, as stated, fails: the reply holds the three labelled lines and a
    sentence that mentions a label and has no colon; the parser raises. *)
Lemma C1_remark_mentioning_label_fails :
  In line_positive_40 (lines_of reply_with_remark)
  /\ In line_negative_10 (lines_of reply_with_remark)
  /\ In line_neutral_50 (lines_of reply_with_remark)
  /\ parse_analysis_result reply_with_remark
     = Raise (ValueError_failed_to_parse IndexError_list_index_out_of_range).
Proof.
  repeat split; try reflexivity; vm_compute; tauto.
Qed.

Lemma sample_lines line :
  line = line_positive_40 \/ line = line_negative_10 \/ line = line_neutral_50 ->
  (branch_of line = Some Positive /\ extract_percentage line = Ok 40)
  \/ (branch_of line = Some Negative /\ extract_percentage line = Ok 10)
  \/ (branch_of line = Some Neutral /\ extract_percentage line = Ok 50).
Proof.
  intros [-> | [-> | ->]]; [left | right; left | right; right];
    split; reflexivity.
Qed.

(** C1, amended: for every input text whose lines include [Positive: 40%],
    [Negative: 10%] and [Neutral: 50%], in any order, and whose other lines
    contain none of the three label substrings, parse_analysis_result
    returns a mapping equal to {Positive: 40, Negative: 10, Neutral: 50}. *)
Theorem C1_three_labelled_lines_among_unrelated text :
  In line_positive_40 (lines_of text) ->
  In line_negative_10 (lines_of text) ->
  In line_neutral_50 (lines_of text) ->
  (forall line, In line (lines_of text) ->
     line = line_positive_40 \/ line = line_negative_10
     \/ line = line_neutral_50 \/ mentions_label line = false) ->
  exists d, parse_analysis_result text = Ok d
            /\ PyDict.eqb d tally_40_10_50 = true.
Proof.
  intros Hp Hn Hu Hother.
  destruct (scan_lines_succeeds (lines_of text) []) as [d Hd].
  { intros l Hl. destruct (Hother l Hl) as [H | [H | [H | H]]]; [| | | now left];
      right; destruct (sample_lines l) as [[_ ?] | [[_ ?] | [_ ?]]]; eauto. }
  destruct (scan_lines_keys _ _ _ Hd) as [Hnd Hkeys].
  specialize (Hnd (NoDup_nil_2 (A:=string))).
  assert (Hval : forall k v, getitem k d = Some v ->
                             getitem k tally_40_10_50 = Some v).
  { intros k v Hg.
    destruct (scan_lines_values _ _ _ _ _ Hd Hg) as [H | (l & Hl & Hb & Hv)];
      [discriminate |].
    destruct (Hother l Hl) as [H | [H | [H | H]]];
      [| | | apply branch_of_None in H; congruence];
      destruct (sample_lines l) as [[Hb' Hv'] | [[Hb' Hv'] | [Hb' Hv']]];
      auto; rewrite Hb' in Hb; rewrite Hv' in Hv;
      injection Hb as <-; injection Hv as <-; reflexivity. }
  assert (Hlen : len d = 3%nat).
  { apply len_three_labels; [assumption |]. intros k. rewrite Hkeys. split.
    - intros [[] | (l & _ & Hb)]. now apply branch_of_label in Hb.
    - intros [-> | [-> | ->]]; right; eauto. }
  exists d. split.
  - rewrite parse_analysis_result_try, parse_try_lines, Hd. simpl.
    now rewrite Hlen.
  - unfold PyDict.eqb. rewrite Hlen.
    apply andb_true_iff. split; [reflexivity |].
    apply forallb_forall. intros [k v] Hin. cbn [fst snd].
    rewrite (Hval k v) by now apply getitem_In.
    apply Z.eqb_refl.
Qed.

Lemma C1_three_labelled_lines_witness :
  exists d, parse_analysis_result reply_with_heading = Ok d
            /\ PyDict.eqb d tally_40_10_50 = true.
Proof.
  apply (C1_three_labelled_lines_among_unrelated reply_with_heading).
  - vm_compute. tauto.
  - vm_compute. tauto.
  - vm_compute. tauto.
  - intros line Hin. vm_compute in Hin.
    decompose [or] Hin; subst; try contradiction; auto;
      right; right; right; reflexivity.
Defined.

Lemma parse_success_shape text d :
  parse_analysis_result text = Ok d ->
  len d = 3%nat /\ NoDup (keys d)
  /\ (forall k, In k (keys d) <->
                k = Positive \/ k = Negative \/ k = Neutral)
  /\ (forall k, In k (keys d) ->
        exists line, In line (lines_of text) /\ branch_of line = Some k).
Proof.
  intros [Hd Hlen]%parse_analysis_result_Ok.
  destruct (scan_lines_keys _ _ _ Hd) as [Hnd Hkeys].
  specialize (Hnd (NoDup_nil_2 (A:=string))).
  assert (Hsub : forall k, In k (keys d) ->
            k = Positive \/ k = Negative \/ k = Neutral).
  { intros k [[] | (l & _ & Hb)]%Hkeys. now apply branch_of_label in Hb. }
  assert (Hsup : incl [Positive; Negative; Neutral] (keys d)).
  { apply NoDup_length_incl.
    - now apply NoDup_ListNoDup.
    - unfold keys. rewrite length_map. fold (len d). now rewrite Hlen.
    - intros k Hk. simpl. destruct (Hsub k Hk) as [-> | [-> | ->]]; auto. }
  repeat split; try assumption.
  - apply Hsub.
  - intros Hk. apply Hsup. simpl. intuition.
  - intros k [[] | H]%Hkeys. assumption.
Qed.

(** C2: parse_analysis_result succeeds only if each of the three labels
    occurs in the input text, and then returns a mapping with exactly three
    entries whose keys are the three labels, each once; if a label does
    not occur in the text it raises the parsing error built from the
    exception that ended the [try] block. *)
Theorem C2_success_needs_three_labels text :
  (forall d, parse_analysis_result text = Ok d ->
     (contains Positive text = true /\ contains Negative text = true
      /\ contains Neutral text = true)
     /\ len d = 3%nat /\ NoDup (keys d)
     /\ (forall k, In k (keys d) <->
                   k = Positive \/ k = Negative \/ k = Neutral))
  /\ (contains Positive text = false \/ contains Negative text = false
      \/ contains Neutral text = false ->
      exists cause,
        parse_try text = Raise cause
        /\ parse_analysis_result text
           = Raise (ValueError_failed_to_parse cause)
        /\ (cause = ValueError_incomplete_sentiment_data
            \/ exists line, In line (lines_of text)
                 /\ mentions_label line = true
                 /\ extract_percentage line = Raise cause)).
Proof.
  assert (Hfound : forall d, parse_analysis_result text = Ok d ->
            forall label,
              label = Positive \/ label = Negative \/ label = Neutral ->
              contains label text = true).
  { intros d Hd label Hl.
    destruct (parse_success_shape _ _ Hd) as (_ & _ & Hkeys & Hlines).
    destruct (Hlines label) as (line & Hin & Hb); [now apply Hkeys |].
    apply branch_of_label in Hb as [_ Hb].
    exact (contains_split LF label line text Hin Hb). }
  split.
  - intros d Hd. destruct (parse_success_shape _ _ Hd) as (Hlen & Hnd & Hkeys & _).
    repeat split; try assumption; try apply Hkeys;
      apply (Hfound d Hd); auto.
  - intros Habsent. rewrite parse_analysis_result_try in *.
    destruct (parse_try text) as [d|cause] eqn:Htry.
    + exfalso. specialize (Hfound d eq_refl).
      destruct Habsent as [H | [H | H]]; rewrite Hfound in H; auto;
        discriminate.
    + exists cause. repeat split. rewrite parse_try_lines in Htry.
      destruct (scan_lines [] (lines_of text)) as [d|e] eqn:Hscan; simpl in Htry.
      * left. destruct (negb _) in Htry; congruence.
      * right. injection Htry as <-. now apply scan_lines_Raise in Hscan.
Qed.

Lemma C2_success_needs_three_labels_witness :
  exists cause,
    parse_try reply_without_neutral = Raise cause
    /\ parse_analysis_result reply_without_neutral
       = Raise (ValueError_failed_to_parse cause)
    /\ (cause = ValueError_incomplete_sentiment_data
        \/ exists line, In line (lines_of reply_without_neutral)
             /\ mentions_label line = true
             /\ extract_percentage line = Raise cause).
Proof.
  apply (C2_success_needs_three_labels reply_without_neutral).
  right. right. reflexivity.
Defined.

(** C5: when parse_analysis_result succeeds, the value it returns for a
    label is the number read from the last line that takes the branch of
    that label, whatever lines took that branch before it. *)
Theorem C5_last_write_wins text d label before line after :
  parse_analysis_result text = Ok d ->
  lines_of text = before ++ line :: after ->
  branch_of line = Some label ->
  (forall l, In l after -> branch_of l <> Some label) ->
  exists v, extract_percentage line = Ok v /\ getitem label d = Some v.
Proof.
  intros [Hd _]%parse_analysis_result_Ok Hlines.
  rewrite Hlines in Hd. now apply scan_lines_last with (d := []) (before := before) (after := after).
Qed.

Lemma C5_last_write_wins_witness :
  exists v, extract_percentage "Positive: 45% (revised)" = Ok v
            /\ getitem Positive [(Positive, 45); (Negative, 10); (Neutral, 50)]
               = Some v.
Proof.
  apply (C5_last_write_wins reply_with_revision
           [(Positive, 45); (Negative, 10); (Neutral, 50)] Positive
           ["Positive: 40%"; "Negative: 10%"]
           "Positive: 45% (revised)" ["Neutral: 50%"]).
  - reflexivity.
  - reflexivity.
  - reflexivity.
  - intros l [<- | []]. discriminate.
Defined.

Lemma scan_lines_with_unrelated ls ls' :
  with_unrelated_lines ls ls' ->
  forall d, scan_lines d ls' = scan_lines d ls.
Proof.
  induction 1 as [|l ls ls' _ IH|l ls ls' Hl _ IH]; intros d; simpl.
  - reflexivity.
  - destruct (scan_line d l); simpl; auto.
  - rewrite scan_line_unrelated by assumption. simpl. auto.
Qed.

(** C8: a text and the same text with lines inserted that contain none of
    the three label substrings have the same result, in both directions:
    the same tally when the parser succeeds, the same error when it
    fails. *)
Theorem C8_unrelated_lines_ignored text text' :
  with_unrelated_lines (lines_of text) (lines_of text') ->
  parse_analysis_result text' = parse_analysis_result text.
Proof.
  intros H. rewrite !parse_analysis_result_try, !parse_try_lines.
  now rewrite (scan_lines_with_unrelated _ _ H).
Qed.

Lemma C8_unrelated_lines_ignored_witness :
  parse_analysis_result reply_with_heading
  = parse_analysis_result (unlines [line_neutral_50; line_positive_40;
                                     line_negative_10]).
Proof.
  apply C8_unrelated_lines_ignored.
  apply wul_insert; [reflexivity |]. apply wul_keep. apply wul_keep.
  apply wul_insert; [reflexivity |]. apply wul_keep.
  apply wul_insert; [reflexivity |]. apply wul_insert; [reflexivity |].
  apply wul_nil.
Defined.

(** C9: a line updates the entry of the first label it contains in the
    order Positive, Negative, Neutral, and no other entry. *)
Theorem C9_first_label_in_order d line d' :
  scan_line d line = Ok d' ->
  (contains Positive line = true ->
   exists v, extract_percentage line = Ok v /\ d' = setitem Positive v d
             /\ getitem Negative d' = getitem Negative d
             /\ getitem Neutral d' = getitem Neutral d)
  /\ (contains Positive line = false -> contains Negative line = true ->
      exists v, extract_percentage line = Ok v /\ d' = setitem Negative v d
                /\ getitem Positive d' = getitem Positive d
                /\ getitem Neutral d' = getitem Neutral d)
  /\ (contains Positive line = false -> contains Negative line = false ->
      contains Neutral line = true ->
      exists v, extract_percentage line = Ok v /\ d' = setitem Neutral v d
                /\ getitem Positive d' = getitem Positive d
                /\ getitem Negative d' = getitem Negative d).
Proof.
  rewrite scan_line_branch. unfold branch_of.
  destruct (contains Positive line); [|destruct (contains Negative line);
    [|destruct (contains Neutral line)]];
  (destruct (extract_percentage line) as [v|e]; simpl; [|discriminate])
  || idtac;
  intros [= <-]; repeat split; try discriminate; intros; exists v;
  repeat split; now rewrite getitem_setitem_ne.
Qed.

Lemma C9_first_label_in_order_witness :
  exists v, extract_percentage "Positive versus Negative: 40%" = Ok v
    /\ [(Negative, 10); (Positive, 40)] = setitem Positive v [(Negative, 10)]
    /\ getitem Negative [(Negative, 10); (Positive, 40)]
       = getitem Negative [(Negative, 10)]
    /\ getitem Neutral [(Negative, 10); (Positive, 40)]
       = getitem Neutral [(Negative, 10)].
Proof.
  apply (C9_first_label_in_order [(Negative, 10)]
           "Positive versus Negative: 40%" [(Negative, 10); (Positive, 40)]).
  - reflexivity.
  - reflexivity.
Defined.

Lemma contains_sep_split sep line :
  contains (String sep EmptyString) line
  = negb (Nat.eqb (length (split sep line)) 1).
Proof.
  induction line as [|c line IH]; [reflexivity |].
  change (contains (String sep EmptyString) (String c line))
    with (Ascii.eqb sep c && is_prefix EmptyString line
          || contains (String sep EmptyString) line).
  pose proof (split_not_nil sep line) as Hne.
  rewrite Ascii.eqb_sym. destruct (Ascii.eqb c sep) eqn:Hc.
  - rewrite split_cons_sep by assumption.
    destruct (split sep line); [contradiction | reflexivity].
  - rewrite split_cons_other by assumption. rewrite IH.
    destruct (split sep line); [contradiction | reflexivity].
Qed.

(** The malformed lines of the specification are those from which the
    code reads no number. *)
Lemma malformed_extract_raises line :
  malformed line = true <-> exists e, extract_percentage line = Raise e.
Proof.
  unfold malformed, first_token_after_colon, extract_percentage, is_integer.
  change ":" with (String colon EmptyString). rewrite contains_sep_split, negb_involutive.
  pose proof (split_not_nil colon line) as Hne.
  destruct (split colon line) as [|s0 [|s1 segs]]; [contradiction | |].
  - simpl. split; eauto.
  - change (Nat.eqb (length (s0 :: s1 :: segs)) 1) with false.
    rewrite orb_false_l.
    change (py_index (s0 :: s1 :: segs) 1) with (Ok s1).
    cbn [bind]. unfold py_index.
    destruct (split_ws (remove_char percent (strip s1))) as [|token tokens];
      simpl; [split; eauto |].
    destruct (py_int token) as [v|e]; simpl; split; eauto; try discriminate.
    intros [e [=]].
Qed.

(** C10 fails on the code as stated: in the line [Positive: 40:30] the
    first whitespace-delimited token after the first colon is [40:30],
    which is no integer, yet the code reads 40 from the text between the
    first colon and the second, and the parse succeeds. *)
Lemma C10_second_colon_line_is_read :
  In "Positive: 40:30" (lines_of reply_with_ratio)
  /\ mentions_label "Positive: 40:30" = true
  /\ malformed_as_worded "Positive: 40:30" = true
  /\ malformed "Positive: 40:30" = false
  /\ parse_analysis_result reply_with_ratio
     = Ok [(Positive, 40); (Negative, 10); (Neutral, 50)].
Proof.
  split; [vm_compute; tauto |].
  split; [reflexivity |]. split; [reflexivity |]. split; reflexivity.
Qed.

(** Two more lines of that kind: a percent sign standing alone before the
    number, and a remark after a second colon that touches the number. *)
Example percent_before_number_is_read :
  malformed_as_worded "Positive: % 40" = true
  /\ extract_percentage "Positive: % 40" = Ok 40
  /\ parse_analysis_result
       (unlines ["Positive: % 40"; "Negative: 10%"; "Neutral: 50%"])
     = Ok [(Positive, 40); (Negative, 10); (Neutral, 50)].
Proof. split; [reflexivity |]. split; reflexivity. Qed.

Example remark_after_second_colon_is_read :
  malformed_as_worded "Positive: 40%: mostly good" = true
  /\ extract_percentage "Positive: 40%: mostly good" = Ok 40
  /\ parse_analysis_result
       (unlines ["Positive: 40%: mostly good"; "Negative: 10%";
                 "Neutral: 50%"])
     = Ok [(Positive, 40); (Negative, 10); (Neutral, 50)].
Proof. split; [reflexivity |]. split; reflexivity. Qed.

(** C10, amended: a line of the input that contains a label substring and
    is malformed (no colon, or no integer as the first whitespace-delimited
    token of the text between the first colon and the next, percent signs
    removed from that text) makes parse_analysis_result raise the parsing
    error, whatever the other lines hold. *)
Theorem C10_malformed_label_line_fails text line :
  In line (lines_of text) ->
  mentions_label line = true ->
  malformed line = true ->
  exists cause,
    parse_try text = Raise cause
    /\ parse_analysis_result text = Raise (ValueError_failed_to_parse cause).
Proof.
  intros Hin Hm [e He]%malformed_extract_raises.
  destruct (scan_lines_fails (lines_of text) [] line e Hin Hm He) as [e' Hscan].
  exists e'. rewrite parse_analysis_result_try, parse_try_lines, Hscan.
  split; reflexivity.
Qed.

Lemma C10_malformed_label_line_fails_witness :
  exists cause,
    parse_try reply_with_fraction = Raise cause
    /\ parse_analysis_result reply_with_fraction
       = Raise (ValueError_failed_to_parse cause).
Proof.
  apply (C10_malformed_label_line_fails reply_with_fraction "Neutral: 49.5%").
  - vm_compute. tauto.
  - reflexivity.
  - reflexivity.
Defined.

End ParserClaims.

(** ** The readiness poller *)

Section PollerFacts.

Variable srv : remote.

Implicit Types (file f : File) (m : machine) (fuel k : nat).

Lemma fetched_S file (n0 : nat) k :
  fetched srv file n0 (S k) =
  match get_file srv n0 (name file) with
  | Ok file' => fetched srv file' (S n0) k
  | Raise e => Raise e
  end.
Proof.
  induction k as [|k IH].
  - simpl. rewrite Nat.add_0_r. now destruct (get_file srv n0 (name file)).
  - change (fetched srv file n0 (S (S k)))
      with (match fetched srv file n0 (S k) with
            | Ok f => get_file srv (n0 + S k) (name f)
            | Raise e => Raise e
            end).
    rewrite IH. destruct (get_file srv n0 (name file)) as [file'|e]; [|reflexivity].
    simpl. now rewrite Nat.add_succ_r.
Qed.

Lemma poll_events_S file (n0 : nat) k :
  poll_events srv file n0 (S k) =
  EvSleep 10 :: EvGetFile (name file) ::
  match get_file srv n0 (name file) with
  | Ok file' => poll_events srv file' (S n0) k
  | Raise _ => []
  end.
Proof.
  induction k as [|k IH].
  - simpl. now destruct (get_file srv n0 (name file)).
  - change (poll_events srv file n0 (S (S k)))
      with (poll_events srv file n0 (S k) ++
            match fetched srv file n0 (S k) with
            | Ok f => [EvSleep 10; EvGetFile (name f)]
            | Raise _ => []
            end).
    rewrite IH, fetched_S.
    destruct (get_file srv n0 (name file)) as [file'|e]; reflexivity.
Qed.

Lemma after_passes_0 file m : after_passes srv file 0 m = m.
Proof.
  destruct m as [dk n c tr]. unfold after_passes. simpl.
  rewrite Nat.add_0_r, Z.add_0_r, app_nil_r. reflexivity.
Qed.

Lemma loop_body_eq file m :
  loop_body srv file m =
  (get_file srv (fetches m) (name file),
   {| disk := disk m; fetches := S (fetches m); clock := clock m + 10;
      trace := (trace m ++ [EvSleep 10]) ++ [EvGetFile (name file)] |}).
Proof. reflexivity. Qed.

Lemma after_passes_S file file' m k :
  get_file srv (fetches m) (name file) = Ok file' ->
  after_passes srv file' k (snd (loop_body srv file m))
  = after_passes srv file (S k) m.
Proof.
  intros Hg. unfold after_passes. rewrite poll_events_S, Hg, loop_body_eq.
  simpl. f_equal; [lia | lia |]. now rewrite <- !app_assoc.
Qed.

(** The loop leaves at the first test whose file is not [PROCESSING],
    after one pass for every test before it. *)
Lemma poll_leaves k : forall file m fuel,
  (forall j, (j < k)%nat ->
     still_processing (fetched srv file (fetches m) j) = true) ->
  still_processing (fetched srv file (fetches m) k) = false ->
  (k <= fuel)%nat ->
  poll srv fuel file m
  = Some (fetched srv file (fetches m) k, after_passes srv file k m).
Proof.
  induction k as [|k IH]; intros file m fuel Hbefore Hk Hfuel.
  - simpl in Hk. rewrite after_passes_0.
    destruct fuel; simpl; now rewrite Hk.
  - destruct fuel as [|fuel]; [lia |].
    pose proof (Hbefore 0%nat ltac:(lia)) as H0. simpl in H0.
    cbn [poll]. rewrite H0, loop_body_eq.
    rewrite fetched_S in Hk |- *.
    destruct (get_file srv (fetches m) (name file)) as [file'|e] eqn:Hg.
    + rewrite <- (after_passes_S file file' m k Hg), loop_body_eq. cbn [snd].
      apply IH; [|exact Hk | lia].
      intros j Hj. specialize (Hbefore (S j) ltac:(lia)).
      now rewrite fetched_S, Hg in Hbefore.
    + destruct k as [|k].
      * unfold after_passes. rewrite poll_events_S, Hg. simpl.
        do 3 f_equal; [lia | now rewrite <- app_assoc].
      * specialize (Hbefore 1%nat ltac:(lia)).
        rewrite fetched_S, Hg in Hbefore. discriminate.
Qed.

(** The loop is still running after [fuel] passes when every test so far
    found the file [PROCESSING]. *)
Lemma poll_still_running fuel : forall file m,
  (forall j, (j <= fuel)%nat ->
     still_processing (fetched srv file (fetches m) j) = true) ->
  poll srv fuel file m = None.
Proof.
  induction fuel as [|fuel IH]; intros file m Hall.
  - pose proof (Hall 0%nat ltac:(lia)) as H0. simpl in H0.
    simpl. now rewrite H0.
  - pose proof (Hall 0%nat ltac:(lia)) as H0. simpl in H0.
    cbn [poll]. rewrite H0, loop_body_eq.
    pose proof (Hall 1%nat ltac:(lia)) as H1. rewrite fetched_S in H1.
    destruct (get_file srv (fetches m) (name file)) as [file'|e] eqn:Hg;
      [|discriminate].
    apply IH. intros j Hj. specialize (Hall (S j) ltac:(lia)).
    now rewrite fetched_S, Hg in Hall.
Qed.

(** The first test that finds the file not [PROCESSING]. *)
Lemma first_false (P : nat -> bool) k :
  (forall j, (j < k)%nat -> P j = true)
  \/ exists k0, (k0 < k)%nat /\ P k0 = false
       /\ forall j, (j < k0)%nat -> P j = true.
Proof.
  induction k as [|k [IH | (k0 & Hlt & H0 & Hbefore)]].
  - left. lia.
  - destruct (P k) eqn:Hk.
    + left. intros j Hj. destruct (Nat.eq_dec j k) as [-> | Hne]; [assumption |].
      apply IH. lia.
    + right. exists k. repeat split; [lia | assumption | assumption].
  - right. exists k0. repeat split; [lia | assumption | assumption].
Qed.

Lemma first_not_processing file (n0 : nat) k :
  still_processing (fetched srv file n0 k) = false ->
  exists k0, (k0 <= k)%nat
    /\ still_processing (fetched srv file n0 k0) = false
    /\ forall j, (j < k0)%nat ->
         still_processing (fetched srv file n0 j) = true.
Proof.
  intros Hk.
  destruct (first_false (fun j => still_processing (fetched srv file n0 j)) k)
    as [Hall | (k0 & Hlt & H0 & Hbefore)].
  - exists k. repeat split; [lia | assumption | assumption].
  - exists k0. repeat split; [lia | assumption | assumption].
Qed.

End PollerFacts.

Section PollerFrame.

Variable srv : remote.

Lemma session_files_app tr1 tr2 :
  session_files (tr1 ++ tr2) = session_files tr1 ++ session_files tr2.
Proof.
  induction tr1 as [|ev tr1 IH]; [reflexivity |].
  destruct ev; simpl; now rewrite ?IH.
Qed.

(** The poll loop leaves the disk alone and starts no session. *)
Lemma poll_frame fuel : forall file m r m',
  poll srv fuel file m = Some (r, m') ->
  disk m' = disk m
  /\ session_files (trace m') = session_files (trace m).
Proof.
  induction fuel as [|fuel IH]; intros file m r m'; cbn [poll];
    destruct (loop_condition file); try discriminate;
    try (intros [= <- <-]; now split).
  rewrite loop_body_eq.
  destruct (get_file srv (fetches m) (name file)) as [file'|e].
  - intros [Hd Hs]%IH. simpl in Hd, Hs. rewrite Hd, Hs.
    rewrite !session_files_app. simpl. now rewrite !app_nil_r.
  - intros [= <- <-]. simpl. rewrite !session_files_app. simpl.
    now rewrite !app_nil_r.
Qed.

(** The loop hands back a file only when its condition fails on it. *)
Lemma poll_Ok fuel : forall file m f m',
  poll srv fuel file m = Some (Ok f, m') -> loop_condition f = false.
Proof.
  induction fuel as [|fuel IH]; intros file m f m'; cbn [poll];
    destruct (loop_condition file) eqn:Hc; try discriminate;
    try (intros [= <- <-]; assumption).
  rewrite loop_body_eq.
  destruct (get_file srv (fetches m) (name file)) as [file'|e];
    [apply IH | discriminate].
Qed.

Lemma state_name_ACTIVE s :
  String.eqb (state_name s) "ACTIVE" = true <-> s = ACTIVE.
Proof. destruct s; simpl; split; congruence. Qed.

Lemma state_name_PROCESSING s :
  String.eqb (state_name s) "PROCESSING" = true <-> s = PROCESSING.
Proof. destruct s; simpl; split; congruence. Qed.

Lemma wait_for_file_active_Ok fuel file m f m' :
  wait_for_file_active srv fuel file m = Some (Ok f, m') ->
  state f = ACTIVE /\ poll srv fuel file m = Some (Ok f, m').
Proof.
  unfold wait_for_file_active.
  destruct (poll srv fuel file m) as [[[f'|e] m1]|]; try discriminate.
  destruct (String.eqb (state_name (state f')) "ACTIVE") eqn:Ha;
    simpl; [|discriminate].
  intros [= <- <-]. split; [now apply state_name_ACTIVE | reflexivity].
Qed.

Lemma wait_for_file_active_frame fuel file m r m' :
  wait_for_file_active srv fuel file m = Some (r, m') ->
  disk m' = disk m
  /\ session_files (trace m') = session_files (trace m).
Proof.
  unfold wait_for_file_active.
  destruct (poll srv fuel file m) as [[[f|e] m1]|] eqn:Hp; try discriminate.
  - destruct (negb _); intros [= <- <-]; exact (poll_frame _ _ _ _ _ Hp).
  - intros [= <- <-]. exact (poll_frame _ _ _ _ _ Hp).
Qed.

Lemma analyze_sentiment_frame fuel path m r m' :
  analyze_sentiment srv fuel path m = Some (r, m') ->
  disk m' = disk m.
Proof.
  unfold analyze_sentiment, upload_to_gemini.
  destruct (upload_file srv path "text/csv") as [f|e]; [|now intros [= <- <-]].
  destruct (wait_for_file_active srv fuel f _) as [[[f'|e] m1]|] eqn:Hw;
    try discriminate;
    apply wait_for_file_active_frame in Hw as [Hd _];
    intros [= <- <-]; exact Hd.
Qed.

End PollerFrame.

(** C4: wait_for_file_active returns a handle only in state ACTIVE; when
    the poll loop is left with a handle in another state, or is not entered
    because the handle passed in is neither PROCESSING nor ACTIVE, it
    raises the error that names that handle; and every handle
    analyze_sentiment gives to a model session is in state ACTIVE. *)
Theorem C4_only_active_handles (srv : remote) (fuel : nat) (file : File)
    (m : machine) :
  (forall f m', wait_for_file_active srv fuel file m = Some (Ok f, m') ->
     state f = ACTIVE)
  /\ (forall f m', poll srv fuel file m = Some (Ok f, m') ->
       state f <> ACTIVE ->
       state f <> PROCESSING
       /\ wait_for_file_active srv fuel file m
          = Some (Raise (Exception_failed_to_process (name f)), m'))
  /\ (state file <> PROCESSING -> state file <> ACTIVE ->
      wait_for_file_active srv fuel file m
      = Some (Raise (Exception_failed_to_process (name file)), m))
  /\ (forall path r m',
        analyze_sentiment srv fuel path m = Some (r, m') ->
        forall f, In f (session_files (trace m')) ->
          In f (session_files (trace m)) \/ state f = ACTIVE).
Proof.
  assert (Hraise : forall f m', poll srv fuel file m = Some (Ok f, m') ->
            state f <> ACTIVE ->
            wait_for_file_active srv fuel file m
            = Some (Raise (Exception_failed_to_process (name f)), m')).
  { intros f m' Hp Hna. unfold wait_for_file_active. rewrite Hp.
    destruct (String.eqb (state_name (state f)) "ACTIVE") eqn:Ha;
      [now apply state_name_ACTIVE in Ha | reflexivity]. }
  repeat split.
  - intros f m' H. now apply wait_for_file_active_Ok in H.
  - apply poll_Ok in H. intros Hs. apply state_name_PROCESSING in Hs.
    unfold loop_condition in H. congruence.
  - now apply Hraise.
  - intros Hnp Hna. apply Hraise; [|assumption].
    assert (Hc : loop_condition file = false).
    { unfold loop_condition.
      destruct (String.eqb (state_name (state file)) "PROCESSING") eqn:Hs;
        [now apply state_name_PROCESSING in Hs | reflexivity]. }
    destruct fuel; simpl; now rewrite Hc.
  - intros path r m'. unfold analyze_sentiment, upload_to_gemini.
    destruct (upload_file srv path "text/csv") as [f0|e].
    + destruct (wait_for_file_active srv fuel f0 _) as [[[f1|e] m1]|] eqn:Hw;
        try discriminate.
      * destruct (wait_for_file_active_frame _ _ _ _ _ _ Hw) as [_ Hs].
        apply wait_for_file_active_Ok in Hw as [Hactive _].
        simpl in Hs. rewrite session_files_app in Hs. simpl in Hs.
        rewrite app_nil_r in Hs.
        intros [= <- <-] f. simpl.
        rewrite !session_files_app, Hs. simpl.
        rewrite !app_nil_r, in_app_iff. simpl.
        intros [H | [<- | []]]; [left | right]; assumption.
      * destruct (wait_for_file_active_frame _ _ _ _ _ _ Hw) as [_ Hs].
        simpl in Hs. rewrite session_files_app in Hs. simpl in Hs.
        rewrite app_nil_r in Hs.
        intros [= <- <-] f. rewrite Hs. auto.
    + intros [= <- <-] f. simpl. rewrite session_files_app. simpl.
      rewrite app_nil_r. auto.
Qed.

Lemma C4_only_active_handles_witness :
  state {| name := "files/reviews"; state := ACTIVE |} = ACTIVE
  /\ wait_for_file_active srv_failing 0 (handle FAILED) fresh
     = Some (Raise (Exception_failed_to_process "files/reviews"), fresh).
Proof.
  split.
  - apply (proj1 (C4_only_active_handles (srv_ready_after 2 "ok") 5
                    (handle PROCESSING) fresh)
             {| name := "files/reviews"; state := ACTIVE |}
             (after_passes (srv_ready_after 2 "ok") (handle PROCESSING) 2 fresh)).
    reflexivity.
  - apply (proj1 (proj2 (proj2 (C4_only_active_handles srv_failing 0
                                  (handle FAILED) fresh)))).
    + discriminate.
    + discriminate.
Defined.

Example analyze_sentiment_ready_after_2 :
  analyze_sentiment (srv_ready_after 2 "Positive: 70%") 5 "temp_reviews.csv"
    fresh
  = Some (Ok "Positive: 70%",
          {| disk := ∅; fetches := 2; clock := 20;
             trace := [EvUpload "temp_reviews.csv" "text/csv";
                       EvSleep 10; EvGetFile "files/reviews";
                       EvSleep 10; EvGetFile "files/reviews";
                       EvStartChat model (handle ACTIVE);
                       EvSendMessage prompt] |}).
Proof. reflexivity. Qed.

(** C7: the poll loop goes through its body, a sleep of 10 and a fetch,
    once for every test that finds the state PROCESSING and leaves at the
    first test that does not, however late that is; it ends if and only if
    some test finds the state not PROCESSING (or the fetch before it
    raises); and when every fetched state is PROCESSING it is still running
    after any number of passes, and so is wait_for_file_active. *)
Theorem C7_poll_runs_while_processing (srv : remote) (file : File)
    (m : machine) :
  (forall k,
     (forall j, (j < k)%nat ->
        still_processing (fetched srv file (fetches m) j) = true) ->
     still_processing (fetched srv file (fetches m) k) = false ->
     forall fuel,
       ((k <= fuel)%nat ->
        poll srv fuel file m
        = Some (fetched srv file (fetches m) k, after_passes srv file k m))
       /\ ((fuel < k)%nat -> poll srv fuel file m = None))
  /\ ((exists fuel out, poll srv fuel file m = Some out) <->
      (exists k, still_processing (fetched srv file (fetches m) k) = false))
  /\ ((forall k, still_processing (fetched srv file (fetches m) k) = true) ->
      forall fuel,
        poll srv fuel file m = None
        /\ wait_for_file_active srv fuel file m = None).
Proof.
  split; [|split].
  - intros k Hbefore Hk fuel. split; intros Hfuel.
    + now apply poll_leaves.
    + apply poll_still_running. intros j Hj. apply Hbefore. lia.
  - split.
    + intros (fuel & out & Hout).
      destruct (first_false
                  (fun j => still_processing (fetched srv file (fetches m) j))
                  (S fuel)) as [Hall | (k0 & _ & H0 & _)]; [|eauto].
      rewrite poll_still_running in Hout; [discriminate |].
      intros j Hj. apply Hall. lia.
    + intros [k Hk].
      destruct (first_not_processing srv file (fetches m) k Hk)
        as (k0 & _ & H0 & Hbefore).
      exists k0. eexists.
      exact (poll_leaves srv k0 file m k0 Hbefore H0 (le_n k0)).
  - intros Hall fuel.
    assert (Hp : poll srv fuel file m = None)
      by (apply poll_still_running; auto).
    split; [assumption |]. unfold wait_for_file_active. now rewrite Hp.
Qed.

Lemma C7_poll_runs_while_processing_witness :
  poll (srv_ready_after 3 "ok") 7 (handle PROCESSING) fresh
  = Some (Ok (handle ACTIVE),
          {| disk := ∅; fetches := 3; clock := 30;
             trace := [EvSleep 10; EvGetFile "files/reviews";
                       EvSleep 10; EvGetFile "files/reviews";
                       EvSleep 10; EvGetFile "files/reviews"] |})
  /\ poll (srv_ready_after 3 "ok") 2 (handle PROCESSING) fresh = None
  /\ poll srv_stuck 50 (handle PROCESSING) fresh = None.
Proof.
  pose proof (C7_poll_runs_while_processing (srv_ready_after 3 "ok")
                (handle PROCESSING) fresh) as (Hleave & _ & _).
  pose proof (C7_poll_runs_while_processing srv_stuck
                (handle PROCESSING) fresh) as (_ & _ & Hstuck).
  assert (Hbefore : forall j, (j < 3)%nat ->
            still_processing
              (fetched (srv_ready_after 3 "ok") (handle PROCESSING)
                 (fetches fresh) j) = true).
  { intros [|[|[|j]]] Hj; try reflexivity. lia. }
  split; [|split].
  - apply (proj1 (Hleave 3%nat Hbefore eq_refl 7%nat)). lia.
  - apply (proj2 (Hleave 3%nat Hbefore eq_refl 2%nat)). lia.
  - assert (Hall : forall k,
              still_processing
                (fetched srv_stuck (handle PROCESSING) (fetches fresh) k)
              = true).
    { induction k as [|k IH]; [reflexivity |].
      cbn [fetched].
      destruct (fetched srv_stuck (handle PROCESSING) (fetches fresh) k);
        [reflexivity | discriminate]. }
    exact (proj1 (Hstuck Hall 50%nat)).
Defined.

(** ** The upload handler *)

Section HandlerFacts.

Variables (srv : remote) (h : host).

Lemma st_frame ev m r m' :
  st h ev m = (r, m') ->
  disk m' = disk m
  /\ (trace m' = trace m \/ (r = Ok tt /\ trace m' = trace m ++ [ev])).
Proof.
  unfold st. destruct (display h (trace m) ev); intros [= <- <-];
    simpl; auto.
Qed.

Lemma and_then_disk {A B : Type} (p : machine -> result A * machine)
    (k : A -> machine -> result B * machine) :
  (forall m r m', p m = (r, m') -> disk m' = disk m) ->
  (forall a m r m', k a m = (r, m') -> disk m' = disk m) ->
  forall m r m', and_then p k m = (r, m') -> disk m' = disk m.
Proof.
  intros Hp Hk m r m'. unfold and_then.
  destruct (p m) as [[a|e] m1] eqn:Hpm.
  - intros Hkm. rewrite (Hk _ _ _ _ Hkm). eauto.
  - intros [= <- <-]. eauto.
Qed.

Lemma show_reply_disk text m r m' :
  show_reply h text m = (r, m') -> disk m' = disk m.
Proof.
  revert m r m'. unfold show_reply.
  repeat (apply and_then_disk;
          [first [ intros m r m' H; now apply st_frame in H
                 | now intros m r m' [= _ <-] ]
          | intros ?]).
  intros m r m' H. now apply st_frame in H.
Qed.

Lemma handler_except_frame r m r2 m2 :
  handler_except h r m = (r2, m2) ->
  disk m2 = disk m
  /\ (trace m2 = trace m
      \/ exists e, r = Raise e /\ trace m2 = trace m ++ [EvError e]).
Proof.
  unfold handler_except. destruct r as [[]|e].
  - intros [= <- <-]. auto.
  - destruct (is_Exception e).
    + intros H. apply st_frame in H as [Hd [Ht | [_ Ht]]]; eauto.
    + intros [= <- <-]. auto.
Qed.

(** The handler once the upload is saved: the [finally] clause finds the
    file and removes it. *)
Lemma handle_upload_saved fuel uploaded_file m :
  let temp := temp_path uploaded_file in
  let m0 := write_file temp (upload_bytes uploaded_file) m in
  save_file h temp (upload_bytes uploaded_file) = Saved ->
  handle_upload srv h fuel uploaded_file m =
  match analyze_sentiment srv fuel temp m0 with
  | None => None
  | Some (r1, m1) =>
      let '(rt, mt) := match r1 with
                       | Ok text => show_reply h text m1
                       | Raise e => (Raise e, m1)
                       end in
      let '(r2, m2) := handler_except h rt mt in
      Some (r2, {| disk := delete temp (disk m); fetches := fetches m2;
                   clock := clock m2; trace := trace m2 |})
  end.
Proof.
  intros temp m0 Hsave. unfold handle_upload, save_upload, handler_try.
  fold (temp_path uploaded_file). fold temp. rewrite Hsave. fold m0.
  destruct (analyze_sentiment srv fuel temp m0) as [[r1 m1]|] eqn:Ha;
    [|reflexivity].
  pose proof (analyze_sentiment_frame _ _ _ _ _ _ Ha) as Hd1.
  assert (Hstep : forall rt mt,
            disk mt = disk m1 ->
            (let '(r2, m2) := handler_except h rt mt in
             match os_remove temp m2 with
             | (Ok _, m3) => Some (r2, m3)
             | (Raise e, m3) => Some (Raise e, m3)
             end)
            = (let '(r2, m2) := handler_except h rt mt in
               Some (r2, {| disk := delete temp (disk m);
                            fetches := fetches m2; clock := clock m2;
                            trace := trace m2 |}))).
  { intros rt mt Hdt.
    destruct (handler_except h rt mt) as [r2 m2] eqn:He.
    apply handler_except_frame in He as [Hd2 _].
    unfold os_remove. rewrite Hd2, Hdt, Hd1. unfold m0, write_file.
    cbn [disk]. rewrite lookup_insert_eq, delete_insert_eq. reflexivity. }
  destruct r1 as [text|e].
  - destruct (show_reply h text m1) as [rt mt] eqn:Hs.
    apply Hstep. exact (show_reply_disk _ _ _ _ Hs).
  - exact (Hstep (Raise e) m1 eq_refl).
Qed.

End HandlerFacts.




Ltac run_handler :=
  eexists; split; [vm_compute; reflexivity |];
  repeat match goal with |- _ /\ _ => split end;
  vm_compute; (reflexivity || tauto).

(** The ways out of the handler, on sample runs. *)
Example handle_upload_success :
  exists m',
    handle_upload (srv_ready_after 1 reply_negative_first) quiet 3 reviews_csv
      fresh
    = Some (Ok tt, m')
    /\ List.last (trace m') (EvSleep 0)
       = EvPyplot (pie_arguments
                     [(Negative, 10); (Positive, 40); (Neutral, 50)])
    /\ disk m' = ∅.
Proof. run_handler. Qed.

Example handle_upload_parse_failure :
  exists m',
    handle_upload (srv_ready_after 1 reply_without_neutral) quiet 3
      reviews_csv fresh
    = Some (Ok tt, m')
    /\ List.last (trace m') (EvSleep 0)
       = EvError (ValueError_failed_to_parse
                    ValueError_incomplete_sentiment_data)
    /\ In (EvWriteText reply_without_neutral) (trace m')
    /\ disk m' = ∅.
Proof. run_handler. Qed.

Example handle_upload_chart_failure :
  exists m',
    handle_upload (srv_ready_after 1 reply_with_negative) quiet 3 reviews_csv
      fresh
    = Some (Ok tt, m')
    /\ List.last (trace m') (EvSleep 0)
       = EvError ValueError_negative_wedge_sizes
    /\ In (EvWriteText "### Sentiment Distribution:") (trace m')
    /\ disk m' = ∅.
Proof. run_handler. Qed.

Example handle_upload_display_failure :
  exists m',
    handle_upload (srv_ready_after 1 reply_negative_first) host_no_figures 3
      reviews_csv fresh
    = Some (Ok tt, m')
    /\ List.last (trace m') (EvSleep 0)
       = EvError (HostError "RuntimeError" "no renderer")
    /\ disk m' = ∅.
Proof. run_handler. Qed.

Example handle_upload_upload_failure :
  exists m',
    handle_upload srv_unreachable quiet 3 reviews_csv fresh = Some (Ok tt, m')
    /\ trace m' = [EvUpload "temp_reviews.csv" "text/csv";
                   EvError (RemoteError "503 Service Unavailable")]
    /\ disk m' = ∅.
Proof. run_handler. Qed.

Example handle_upload_processing_failure :
  exists m',
    handle_upload srv_failing quiet 3 reviews_csv fresh = Some (Ok tt, m')
    /\ List.last (trace m') (EvSleep 0)
       = EvError (Exception_failed_to_process "files/reviews")
    /\ disk m' = ∅.
Proof. run_handler. Qed.

(** ** generate_pie_chart *)

Lemma wedges_of_three k0 v0 k1 v1 k2 v2 :
  wedges (pie_arguments [(k0, v0); (k1, v1); (k2, v2)])
  = [ {| wedge_label := k0; wedge_size := v0;
         wedge_color := Some green; wedge_explode := Some (1 # 10)%Q |};
      {| wedge_label := k1; wedge_size := v1;
         wedge_color := Some red; wedge_explode := Some (1 # 10)%Q |};
      {| wedge_label := k2; wedge_size := v2;
         wedge_color := Some yellow; wedge_explode := Some 0%Q |} ].
Proof. reflexivity. Qed.

(** A figure that is drawn is the figure of the arguments. *)
Lemma generate_pie_chart_Ok plt d chart :
  generate_pie_chart plt d = Ok chart -> chart = pie_arguments d.
Proof.
  unfold generate_pie_chart, ax_pie.
  destruct (if forallb fits_int64 _ then None else _); [discriminate |].
  repeat (match goal with
          | |- context [if ?b then Raise _ else _] => destruct b
          end; [discriminate |]).
  now intros [= <-].
Qed.

(** For a tally of three values that fit 64 bits, the chart is drawn
    unless a value is negative or all three are zero. *)
Lemma generate_pie_chart_three plt d :
  len d = 3%nat -> forallb fits_int64 (values d) = true ->
  generate_pie_chart plt d
  = if existsb (fun v => v <? 0) (values d)
    then Raise ValueError_negative_wedge_sizes
    else if forallb (Z.eqb 0) (values d) then Raise ValueError_nan_wedge
    else Ok (pie_arguments d).
Proof.
  intros Hlen Hfit. unfold generate_pie_chart, ax_pie.
  cbn [sizes labels explode pie_arguments]. rewrite Hfit.
  destruct d as [|[k0 v0] [|[k1 v1] [|[k2 v2] [|? ?]]]]; try discriminate.
  cbn [values keys map length Nat.eqb negb andb].
  destruct (existsb _ _); [reflexivity |].
  now rewrite andb_true_r.
Qed.

(** With the labels inserted in the order Positive, Negative, Neutral the
    colors are the intended ones. *)
Lemma colors_in_listed_order vp vn vu :
  let chart := pie_arguments
                 [(Positive, vp); (Negative, vn); (Neutral, vu)] in
  color_of Positive chart = Some green
  /\ color_of Negative chart = Some red
  /\ color_of Neutral chart = Some yellow.
Proof. repeat split. Qed.

(** C3 fails on the code: for the reply that lists Negative first, the
    parser returns a tally whose first key is Negative, and the chart,
    which is drawn whatever the plotting library answers for large sizes,
    gives the Negative slice the first color, green, and the Positive
    slice the second, red. *)
Theorem C3_colors_follow_insertion_order :
  parse_analysis_result reply_negative_first
  = Ok [(Negative, 10); (Positive, 40); (Neutral, 50)]
  /\ forall plt, exists chart,
       generate_pie_chart plt [(Negative, 10); (Positive, 40); (Neutral, 50)]
       = Ok chart
       /\ labels chart = [Negative; Positive; Neutral]
       /\ colors chart = [green; red; yellow]
       /\ color_of Negative chart = Some green
       /\ color_of Positive chart = Some red
       /\ color_of Neutral chart = Some yellow.
Proof.
  split; [reflexivity |]. intros plt. eexists. split; [reflexivity |].
  repeat split.
Qed.

(** * Further properties *)

(** ** parse_analysis_result: what it accepts and what it reports *)

Lemma scan_lines_padded ls ls' :
  Forall2 padded ls ls' -> forall d, scan_lines d ls' = scan_lines d ls.
Proof.
  induction 1 as [|l l' ls ls' (w1 & w2 & Hw1 & Hw2 & ->) _ IH]; intros d;
    simpl; [reflexivity |].
  rewrite scan_line_space_app, scan_line_app_space by assumption.
  destruct (scan_line d l); simpl; auto.
Qed.

(** X1: whitespace at the start and at the end of the lines of the reply,
    such as indentation or the carriage return of a CR LF line ending,
    does not change the result of parse_analysis_result. *)
Theorem X1_padding_of_lines_ignored text text' :
  Forall2 padded (lines_of text) (lines_of text') ->
  parse_analysis_result text' = parse_analysis_result text.
Proof.
  intros H. rewrite !parse_analysis_result_try, !parse_try_lines.
  now rewrite (scan_lines_padded _ _ H).
Qed.

Lemma X1_padding_of_lines_ignored_witness :
  parse_analysis_result reply_crlf
  = parse_analysis_result
      (unlines ["Positive: 40%"; "Negative: 10%"; "Neutral: 50%"]).
Proof.
  apply X1_padding_of_lines_ignored.
  change (Forall2 padded
            ["Positive: 40%"; "Negative: 10%"; "Neutral: 50%"]
            ["Positive: 40%" +:+ String (ascii_of_nat 13) EmptyString;
             "  Negative: 10%" +:+ String (ascii_of_nat 13) EmptyString;
             "Neutral: 50%"]).
  constructor; [|constructor; [|constructor; [|constructor]]].
  - exists EmptyString, (String (ascii_of_nat 13) EmptyString).
    split; [reflexivity | split; reflexivity].
  - exists "  ", (String (ascii_of_nat 13) EmptyString).
    split; [reflexivity | split; reflexivity].
  - exists EmptyString, EmptyString.
    split; [reflexivity | split; reflexivity].
Defined.

Lemma well_formed_extract line :
  malformed line = false -> exists v, extract_percentage line = Ok v.
Proof.
  intros H. destruct (extract_percentage line) as [v|e] eqn:He; [eauto |].
  assert (malformed line = true) by (apply malformed_extract_raises; eauto).
  congruence.
Qed.

(** X2: parse_analysis_result succeeds exactly when every line that
    contains a label substring yields a number and each of the three
    labels has a line that takes its branch. *)
Theorem X2_success_criterion text :
  (exists d, parse_analysis_result text = Ok d) <->
  label_lines_well_formed (lines_of text)
  /\ forall label, is_label label ->
       exists line, In line (lines_of text) /\ branch_of line = Some label.
Proof.
  split.
  - intros [d Hd]. split.
    + intros line Hin Hm.
      destruct (malformed line) eqn:Hbad; [|reflexivity].
      apply malformed_extract_raises in Hbad as [e He].
      apply parse_analysis_result_Ok in Hd as [Hd _].
      destruct (scan_lines_fails _ [] _ _ Hin Hm He) as [e' He'].
      congruence.
    + intros label Hl.
      destruct (parse_success_shape _ _ Hd) as (_ & _ & Hkeys & Hlines).
      apply Hlines, Hkeys, Hl.
  - intros [Hwf Hall].
    destruct (scan_lines_succeeds (lines_of text) []) as [d Hd].
    { intros l Hin. destruct (mentions_label l) eqn:Hm; [right | now left].
      now apply well_formed_extract, Hwf. }
    exists d. rewrite parse_analysis_result_try, parse_try_lines, Hd. simpl.
    destruct (scan_lines_keys _ _ _ Hd) as [Hnd Hkeys].
    rewrite len_three_labels; [reflexivity | apply Hnd, NoDup_nil_2 |].
    intros k. rewrite Hkeys. split.
    + intros [[] | (l & _ & Hb)]. now apply branch_of_label in Hb.
    + intros Hk. right. now apply Hall.
Qed.

(** X3: when a line that contains a label substring yields no number and
    no such line before it does either, the parsing error wraps the
    exception of that line: the first bad line decides the error. *)
Theorem X3_first_bad_line_decides text before line after e :
  lines_of text = before ++ line :: after ->
  label_lines_well_formed before ->
  mentions_label line = true ->
  extract_percentage line = Raise e ->
  parse_analysis_result text = Raise (ValueError_failed_to_parse e).
Proof.
  intros Hlines Hbefore Hm He.
  rewrite parse_analysis_result_try, parse_try_lines, Hlines, scan_lines_app.
  destruct (scan_lines_succeeds before []) as [d ->].
  { intros l Hin. destruct (mentions_label l) eqn:Hl; [right | now left].
    now apply well_formed_extract, Hbefore. }
  simpl. rewrite scan_line_branch, He.
  destruct (branch_of line) eqn:Hb; [reflexivity |].
  apply branch_of_None in Hb. congruence.
Qed.

Lemma X3_first_bad_line_decides_witness :
  parse_analysis_result reply_two_bad_lines
  = Raise (ValueError_failed_to_parse IndexError_list_index_out_of_range).
Proof.
  apply (X3_first_bad_line_decides reply_two_bad_lines
           ["Positive: 40%"] "Negative 10%" ["Neutral: n/a"]).
  - reflexivity.
  - intros l [<- | []] _. reflexivity.
  - reflexivity.
  - reflexivity.
Defined.

(** X4: when every line that contains a label substring yields a number
    and some label has no line that takes its branch, as in an empty
    reply, the parsing error wraps the incomplete-data error. *)
Theorem X4_missing_label_reported_incomplete text label :
  label_lines_well_formed (lines_of text) ->
  is_label label ->
  (forall line, In line (lines_of text) -> branch_of line <> Some label) ->
  parse_analysis_result text
  = Raise (ValueError_failed_to_parse ValueError_incomplete_sentiment_data).
Proof.
  intros Hwf Hl Hnone.
  destruct (scan_lines_succeeds (lines_of text) []) as [d Hd].
  { intros l Hin. destruct (mentions_label l) eqn:Hm; [right | now left].
    now apply well_formed_extract, Hwf. }
  rewrite parse_analysis_result_try, parse_try_lines, Hd. simpl.
  destruct (Nat.eqb_spec (len d) 3) as [Hlen|]; [|reflexivity].
  exfalso.
  assert (Hok : parse_analysis_result text = Ok d).
  { rewrite parse_analysis_result_try, parse_try_lines, Hd. simpl.
    now rewrite Hlen. }
  destruct (parse_success_shape _ _ Hok) as (_ & _ & Hkeys & Hlines).
  destruct (Hlines label) as (line & Hin & Hb); [now apply Hkeys |].
  now apply (Hnone line).
Qed.

Lemma X4_missing_label_reported_incomplete_witness :
  parse_analysis_result EmptyString
  = Raise (ValueError_failed_to_parse ValueError_incomplete_sentiment_data).
Proof.
  apply (X4_missing_label_reported_incomplete EmptyString Neutral).
  - intros l [<- | []]. discriminate.
  - right. right. reflexivity.
  - intros l [<- | []]. discriminate.
Defined.

Lemma X2_success_criterion_witness :
  exists d, parse_analysis_result reply_with_heading = Ok d.
Proof.
  apply (proj2 (X2_success_criterion reply_with_heading)). split.
  - intros line Hin Hm. vm_compute in Hin.
    decompose [or] Hin; subst; try contradiction; try reflexivity;
      vm_compute in Hm; discriminate.
  - intros label [-> | [-> | ->]].
    + exists "Positive: 40%". split; [vm_compute; tauto | reflexivity].
    + exists "Negative: 10%". split; [vm_compute; tauto | reflexivity].
    + exists "Neutral: 50%". split; [vm_compute; tauto | reflexivity].
Defined.

Lemma keys_setitem_add_key k v d :
  keys (setitem k v d) = add_key (keys d) k.
Proof.
  unfold add_key. induction d as [|[k' v'] d IH]; [reflexivity |].
  change (keys ((k', v') :: d)) with (k' :: keys d).
  cbn [setitem existsb]. rewrite (String.eqb_sym k k').
  destruct (String.eqb k' k); cbn [orb]; [reflexivity |].
  change (keys ((k', v') :: setitem k v d))
    with (k' :: keys (setitem k v d)).
  rewrite IH. now destruct (existsb (String.eqb k) (keys d)).
Qed.

Lemma scan_lines_key_order ls : forall d d',
  scan_lines d ls = Ok d' ->
  keys d' = fold_left add_key (omap branch_of ls) (keys d).
Proof.
  induction ls as [|l ls IH]; intros d d'; simpl.
  - now intros [= <-].
  - destruct (scan_line d l) as [d1|e] eqn:Hl; simpl; [|discriminate].
    intros Hd'. rewrite (IH _ _ Hd').
    apply scan_line_Ok in Hl as [[-> ->] | (label & v & -> & _ & ->)].
    + reflexivity.
    + simpl. now rewrite keys_setitem_add_key.
Qed.

(** X5: the keys of the tally returned by parse_analysis_result are in the
    order in which the lines of the reply first take the branch of each
    label. *)
Theorem X5_keys_in_order_of_first_lines text d :
  parse_analysis_result text = Ok d -> keys d = label_order text.
Proof.
  intros [Hd _]%parse_analysis_result_Ok.
  exact (scan_lines_key_order _ _ _ Hd).
Qed.

Lemma X5_keys_in_order_of_first_lines_witness :
  keys [(Neutral, 50); (Positive, 40); (Negative, 10)]
  = label_order reply_with_heading.
Proof.
  apply X5_keys_in_order_of_first_lines. reflexivity.
Defined.

(** ** generate_pie_chart: when the colors are the intended ones *)

(** X6: when generate_pie_chart draws the chart of a tally of three
    entries, the Positive slice is green, the Negative one red and the
    Neutral one yellow exactly when the keys of the tally are Positive,
    Negative, Neutral in this order. *)
Theorem X6_intended_colors_iff_listed_order (plt : matplotlib) (d : dict)
    (chart : pie_chart) :
  len d = 3%nat ->
  generate_pie_chart plt d = Ok chart ->
  (color_of Positive chart = Some green
   /\ color_of Negative chart = Some red
   /\ color_of Neutral chart = Some yellow)
  <-> keys d = [Positive; Negative; Neutral].
Proof.
  intros Hlen ->%generate_pie_chart_Ok. revert Hlen.
  destruct d as [|[k0 v0] [|[k1 v1] [|[k2 v2] [|? ?]]]]; try discriminate.
  intros _. unfold color_of. rewrite wedges_of_three. simpl.
  destruct (String.eqb_spec k0 Positive), (String.eqb_spec k0 Negative),
    (String.eqb_spec k0 Neutral), (String.eqb_spec k1 Positive),
    (String.eqb_spec k1 Negative), (String.eqb_spec k1 Neutral),
    (String.eqb_spec k2 Positive), (String.eqb_spec k2 Negative),
    (String.eqb_spec k2 Neutral);
    subst; simpl; split;
    try (intros (H1 & H2 & H3); discriminate);
    try (intros [= ? ? ?]; subst; try discriminate; try contradiction);
    try (repeat split; reflexivity);
    try congruence.
Qed.

Lemma X6_intended_colors_iff_listed_order_witness :
  color_of Positive (pie_arguments tally_40_10_50) = Some green
  /\ color_of Negative (pie_arguments tally_40_10_50) = Some red
  /\ color_of Neutral (pie_arguments tally_40_10_50) = Some yellow.
Proof.
  apply (proj2 (X6_intended_colors_iff_listed_order (plt quiet)
                  tally_40_10_50 (pie_arguments tally_40_10_50)
                  eq_refl eq_refl)).
  reflexivity.
Defined.

(** ** The number read from a line *)

Section ExtractFacts.

Implicit Types (s t w x y : string) (c : ascii).

Lemma split_without_sep sep s :
  contains (String sep EmptyString) s = false -> split sep s = [s].
Proof.
  induction s as [|c s IH]; [reflexivity |].
  change (contains (String sep EmptyString) (String c s))
    with (Ascii.eqb sep c && is_prefix EmptyString s
          || contains (String sep EmptyString) s).
  rewrite Ascii.eqb_sym.
  intros [H1 H2]%orb_false_iff. simpl. rewrite (IH H2).
  destruct (Ascii.eqb c sep); [destruct s; discriminate | reflexivity].
Qed.

Lemma split_after_first sep a rest :
  contains (String sep EmptyString) a = false ->
  split sep (a +:+ String sep rest) = a :: split sep rest.
Proof.
  intros Ha. rewrite split_app, (split_without_sep sep a Ha). simpl.
  now rewrite Ascii.eqb_refl, append_nil_r.
Qed.

Lemma remove_char_app old s t :
  remove_char old (s +:+ t) = remove_char old s +:+ remove_char old t.
Proof.
  induction s as [|c s IH]; simpl; [reflexivity |].
  destruct (Ascii.eqb c old); simpl; now rewrite IH.
Qed.

Lemma remove_percent_all_space w :
  all_space w = true -> remove_char percent w = w.
Proof.
  induction w as [|c w IH]; simpl; [reflexivity |].
  intros [Hc Hw]%andb_true_iff.
  rewrite Ascii.eqb_sym, (space_neq c percent) by (assumption || reflexivity).
  now rewrite IH.
Qed.

Lemma split_ws_cons_space c s :
  is_space c = true -> split_ws (String c s) = split_ws s.
Proof. intros Hc. simpl. now rewrite Hc. Qed.

Lemma split_ws_all_space w : all_space w = true -> split_ws w = [].
Proof.
  induction w as [|c w IH]; [reflexivity |].
  intros [Hc Hw]%andb_true_iff. rewrite split_ws_cons_space; auto.
Qed.

Lemma split_ws_space_app w s :
  all_space w = true -> split_ws (w +:+ s) = split_ws s.
Proof.
  induction w as [|c w IH]; [reflexivity |].
  intros [Hc Hw]%andb_true_iff.
  change (String c w +:+ s) with (String c (w +:+ s)).
  rewrite split_ws_cons_space; auto.
Qed.

Lemma split_ws_cons_not_nil c s :
  is_space c = false -> split_ws (String c s) <> [].
Proof.
  intros Hc. simpl. rewrite Hc. destruct s as [|c' s]; [discriminate |].
  destruct (is_space c'); [discriminate |].
  destruct (split_ws (String c' s)); discriminate.
Qed.

(** The tokens on both sides of a whitespace character. *)
Lemma split_ws_app_space x c y :
  is_space c = true ->
  split_ws (x +:+ String c y) = split_ws x ++ split_ws y.
Proof.
  intros Hc. induction x as [|a x IH].
  - simpl. now rewrite Hc.
  - change (String a x +:+ String c y) with (String a (x +:+ String c y)).
    destruct (is_space a) eqn:Ha.
    + rewrite !split_ws_cons_space by assumption. exact IH.
    + destruct x as [|b x].
      * simpl. rewrite Ha, Hc. reflexivity.
      * change (String b x +:+ String c y)
          with (String b (x +:+ String c y)) in *.
        change (split_ws (String a (String b (x +:+ String c y))))
          with (if is_space a then split_ws (String b (x +:+ String c y))
                else if is_space b
                     then String a EmptyString
                          :: split_ws (String b (x +:+ String c y))
                     else match split_ws (String b (x +:+ String c y)) with
                          | tok :: toks => String a tok :: toks
                          | [] => [String a EmptyString]
                          end).
        change (split_ws (String a (String b x)))
          with (if is_space a then split_ws (String b x)
                else if is_space b
                     then String a EmptyString :: split_ws (String b x)
                     else match split_ws (String b x) with
                          | tok :: toks => String a tok :: toks
                          | [] => [String a EmptyString]
                          end).
        rewrite Ha, IH. destruct (is_space b) eqn:Hb; [reflexivity |].
        pose proof (split_ws_cons_not_nil b x Hb).
        destruct (split_ws (String b x)); [contradiction | reflexivity].
Qed.

Lemma split_ws_app_all_space x w :
  all_space w = true -> split_ws (x +:+ w) = split_ws x.
Proof.
  destruct w as [|c w]; [now rewrite append_nil_r |].
  intros [Hc Hw]%andb_true_iff.
  rewrite split_ws_app_space by assumption.
  now rewrite (split_ws_all_space w Hw), app_nil_r.
Qed.

(** The [strip] before [replace] and [split] makes no difference to the
    tokens. *)
Lemma split_ws_remove_strip s :
  split_ws (remove_char percent (strip s))
  = split_ws (remove_char percent s).
Proof.
  unfold strip.
  destruct (lstrip_decompose s) as (w1 & Hw1 & H1).
  destruct (rstrip_decompose (lstrip s)) as (w2 & Hw2 & H2).
  rewrite H1 at 2. rewrite H2 at 2.
  rewrite !remove_char_app.
  rewrite (remove_percent_all_space w1 Hw1), (remove_percent_all_space w2 Hw2).
  now rewrite split_ws_space_app, split_ws_app_all_space.
Qed.

Lemma is_prefix_app_break needle s c rest :
  no_space needle = true -> is_space c = true ->
  is_prefix needle (s +:+ String c rest) = is_prefix needle s.
Proof.
  intros Hn Hc. revert s.
  induction needle as [|a needle IH]; intros s; [now destruct s |].
  simpl in Hn. apply andb_true_iff in Hn as [Ha%negb_true_iff Hn].
  destruct s as [|b s]; simpl.
  - now rewrite (space_neq c a).
  - now rewrite IH.
Qed.

Lemma contains_app_break needle s c rest :
  no_space needle = true -> needle <> EmptyString -> is_space c = true ->
  contains needle (s +:+ String c rest)
  = contains needle s || contains needle rest.
Proof.
  intros Hn Hne Hc. induction s as [|b s IH].
  - change (EmptyString +:+ String c rest) with (String c rest).
    rewrite contains_cons_space by assumption.
    destruct needle; [contradiction | reflexivity].
  - change (String b s +:+ String c rest)
      with (String b (s +:+ String c rest)).
    change (contains needle (String b (s +:+ String c rest)))
      with (is_prefix needle (String b s +:+ String c rest)
            || contains needle (s +:+ String c rest)).
    change (contains needle (String b s))
      with (is_prefix needle (String b s) || contains needle s).
    rewrite is_prefix_app_break, IH by assumption.
    now rewrite orb_assoc.
Qed.

End ExtractFacts.

(** X7: the number is read from the text between the first colon of the
    line and the next one: what stands before the first colon and what
    follows the second makes no difference. *)
Theorem X7_number_between_first_two_colons (a seg b : string) :
  contains ":" a = false ->
  contains ":" seg = false ->
  extract_percentage (a +:+ String colon seg)
  = extract_percentage (String colon seg)
  /\ extract_percentage (a +:+ String colon (seg +:+ String colon b))
     = extract_percentage (String colon seg).
Proof.
  change ":" with (String colon EmptyString). intros Ha Hseg.
  assert (H0 : forall rest,
            extract_percentage (a +:+ String colon rest)
            = extract_percentage (String colon rest)).
  { intros rest. unfold extract_percentage.
    rewrite (split_after_first colon a rest Ha).
    change (String colon rest) with (EmptyString +:+ String colon rest).
    now rewrite (split_after_first colon EmptyString rest eq_refl). }
  split; [apply H0 |]. rewrite H0. unfold extract_percentage.
  change (String colon (seg +:+ String colon b))
    with (EmptyString +:+ String colon (seg +:+ String colon b)).
  change (String colon seg) with (EmptyString +:+ String colon seg).
  rewrite !(split_after_first colon EmptyString _ eq_refl).
  rewrite (split_after_first colon seg b Hseg).
  now rewrite (split_without_sep colon seg Hseg).
Qed.

Lemma X7_number_between_first_two_colons_witness :
  extract_percentage ("Share of Positive" +:+ String colon " 40%")
  = extract_percentage (String colon " 40%")
  /\ extract_percentage
       ("Share of Positive"
        +:+ String colon (" 40%" +:+ String colon " up from 35%"))
     = extract_percentage (String colon " 40%").
Proof.
  apply X7_number_between_first_two_colons; reflexivity.
Defined.

Lemma extract_app_break line c rest v :
  extract_percentage line = Ok v -> is_space c = true ->
  extract_percentage (line +:+ String c rest) = Ok v.
Proof.
  intros Hv Hc. unfold extract_percentage in *. rewrite split_app.
  rewrite (split_cons_other colon c rest)
    by (apply (space_neq c colon); [assumption | reflexivity]).
  cbn [hd tl].
  destruct (split colon line) as [|s0 [|s1 [|s2 segs]]];
    try discriminate; [|exact Hv].
  cbn [removelast List.last app py_index nth_error bind] in *.
  rewrite split_ws_remove_strip in *. rewrite remove_char_app.
  cbn [remove_char].
  rewrite (Ascii.eqb_sym c percent), (space_neq c percent)
    by (assumption || reflexivity).
  rewrite split_ws_app_space by assumption.
  destruct (split_ws (remove_char percent s1)) as [|token tokens];
    [discriminate | exact Hv].
Qed.

(** X8: once a line yields a number, text added at its end after a
    whitespace character changes nothing for the parser, as long as that
    text contains no label substring. *)
Theorem X8_commentary_after_number_ignored (d : dict) (line : string)
    (c : ascii) (rest : string) (v : Z) :
  extract_percentage line = Ok v ->
  is_space c = true ->
  mentions_label rest = false ->
  scan_line d (line +:+ String c rest) = scan_line d line.
Proof.
  intros Hv Hc Hrest. rewrite !scan_line_branch.
  rewrite (extract_app_break line c rest v Hv Hc), Hv.
  unfold mentions_label in Hrest.
  apply orb_false_iff in Hrest as [[Hp Hn]%orb_false_iff Hu].
  unfold branch_of.
  rewrite !contains_app_break by (assumption || reflexivity || discriminate).
  now rewrite Hp, Hn, Hu, !orb_false_r.
Qed.

Lemma X8_commentary_after_number_ignored_witness :
  scan_line [] ("Positive: 40%" +:+ String " " "(12 of 30 reviews)")
  = scan_line [] "Positive: 40%".
Proof.
  apply (X8_commentary_after_number_ignored [] "Positive: 40%" " "
           "(12 of 30 reviews)" 40); reflexivity.
Defined.






(** ** The poller and the analyzer: the outcome of a run that ends *)

Lemma poll_Some_inv srv fuel file m r m' :
  poll srv fuel file m = Some (r, m') ->
  exists k, (k <= fuel)%nat
    /\ (forall j, (j < k)%nat ->
          still_processing (fetched srv file (fetches m) j) = true)
    /\ still_processing (fetched srv file (fetches m) k) = false
    /\ r = fetched srv file (fetches m) k
    /\ m' = after_passes srv file k m.
Proof.
  intros Hp.
  destruct (first_false
              (fun j => still_processing (fetched srv file (fetches m) j))
              (S fuel)) as [Hall | (k & Hlt & Hk & Hbefore)].
  - rewrite poll_still_running in Hp; [discriminate |].
    intros j Hj. apply Hall. lia.
  - exists k. rewrite (poll_leaves srv k file m fuel Hbefore Hk) in Hp by lia.
    injection Hp as <- <-. repeat split; [lia | assumption | assumption].
Qed.

(** X10: a call of wait_for_file_active that ends has gone through the
    body of its loop [k] times, for the first [k] whose test finds the file
    not PROCESSING, and its outcome is decided by that test: an exception
    of the fetch is passed on as it is, an ACTIVE handle is returned, and
    for any other state the error names the handle fetched last. *)
Theorem X10_wait_outcome (srv : remote) (fuel : nat) (file : File)
    (m : machine) (r : result File) (m' : machine) :
  wait_for_file_active srv fuel file m = Some (r, m') ->
  exists k, (k <= fuel)%nat
    /\ (forall j, (j < k)%nat ->
          still_processing (fetched srv file (fetches m) j) = true)
    /\ m' = after_passes srv file k m
    /\ match fetched srv file (fetches m) k with
       | Raise e => r = Raise e
       | Ok f =>
           match state f with
           | ACTIVE => r = Ok f
           | PROCESSING => False
           | _ => r = Raise (Exception_failed_to_process (name f))
           end
       end.
Proof.
  unfold wait_for_file_active.
  destruct (poll srv fuel file m) as [[r0 m0]|] eqn:Hp; [|discriminate].
  apply poll_Some_inv in Hp as (k & Hle & Hbefore & Hk & -> & ->).
  intros H. exists k. repeat split; [assumption | assumption | |].
  - destruct (fetched srv file (fetches m) k) as [f|e];
      [destruct (negb _) |]; congruence.
  - destruct (fetched srv file (fetches m) k) as [f|e]; [|congruence].
    simpl in Hk. unfold loop_condition in Hk.
    destruct (state f); simpl in *; congruence.
Qed.

Lemma X10_wait_outcome_witness :
  let r : result File :=
    Raise (Exception_failed_to_process "files/reviews") in
  exists k, (k <= 5)%nat
    /\ (forall j, (j < k)%nat ->
          still_processing
            (fetched srv_failing (handle PROCESSING) (fetches fresh) j) = true)
    /\ after_passes srv_failing (handle PROCESSING) 1 fresh
       = after_passes srv_failing (handle PROCESSING) k fresh
    /\ match fetched srv_failing (handle PROCESSING) (fetches fresh) k with
       | Raise e => r = Raise e
       | Ok f =>
           match state f with
           | ACTIVE => r = Ok f
           | PROCESSING => False
           | _ => r = Raise (Exception_failed_to_process (name f))
           end
       end.
Proof.
  intros r.
  apply (X10_wait_outcome srv_failing 5 (handle PROCESSING) fresh r
           (after_passes srv_failing (handle PROCESSING) 1 fresh)).
  reflexivity.
Defined.

(** X11: a call of analyze_sentiment that ends is decided by the answers
    of the service. When the upload raises, that exception is the result
    and nothing else is done. Otherwise the file is polled up to the first
    answer that is not PROCESSING: an exception of the fetch is the result;
    for an ACTIVE handle one session is started with that handle, the one
    prompt is sent and the answer or the exception of the model is the
    result; for any other state the error names the handle and no session
    is started. *)
Theorem X11_analyze_sentiment_outcome (srv : remote) (fuel : nat)
    (path : string) (m : machine) (r : result string) (m' : machine) :
  analyze_sentiment srv fuel path m = Some (r, m') ->
  match upload_file srv path "text/csv" with
  | Raise e => r = Raise e /\ m' = emit (EvUpload path "text/csv") m
  | Ok uploaded =>
      exists k, (k <= fuel)%nat
        /\ let m1 := after_passes srv uploaded k
                       (emit (EvUpload path "text/csv") m) in
           match fetched srv uploaded (fetches m) k with
           | Raise e => r = Raise e /\ m' = m1
           | Ok f =>
               match state f with
               | ACTIVE =>
                   r = send_message srv f prompt
                   /\ m' = emit (EvSendMessage prompt)
                             (emit (EvStartChat model f) m1)
               | PROCESSING => False
               | _ =>
                   r = Raise (Exception_failed_to_process (name f))
                   /\ m' = m1
               end
           end
  end.
Proof.
  unfold analyze_sentiment, upload_to_gemini, wait_for_file_active.
  destruct (upload_file srv path "text/csv") as [uploaded|e];
    [|now intros [= <- <-]].
  destruct (poll srv fuel uploaded _) as [[r0 m0]|] eqn:Hp; [|discriminate].
  apply poll_Some_inv in Hp as (k & Hle & _ & Hk & -> & ->).
  intros H. exists k. split; [assumption |]. cbn zeta.
  change (fetches (emit (EvUpload path "text/csv") m)) with (fetches m) in *.
  destruct (fetched srv uploaded (fetches m) k) as [f|e];
    [|injection H as <- <-; now split].
  simpl in Hk. unfold loop_condition in Hk.
  destruct (state f); simpl in *; try discriminate;
    injection H as <- <-; now split.
Qed.

Lemma X11_analyze_sentiment_outcome_witness :
  let srv := srv_ready_after 2 "Positive: 70%" in
  let r : result string := Ok "Positive: 70%" in
  let m' :=
    {| disk := ∅; fetches := 2; clock := 20;
       trace := [EvUpload "temp_reviews.csv" "text/csv";
                 EvSleep 10; EvGetFile "files/reviews";
                 EvSleep 10; EvGetFile "files/reviews";
                 EvStartChat model (handle ACTIVE);
                 EvSendMessage prompt] |} in
  exists k, (k <= 5)%nat
    /\ let m1 := after_passes srv (handle PROCESSING) k
                   (emit (EvUpload "temp_reviews.csv" "text/csv") fresh) in
       match fetched srv (handle PROCESSING) (fetches fresh) k with
       | Raise e => r = Raise e /\ m' = m1
       | Ok f =>
           match state f with
           | ACTIVE =>
               r = send_message srv f prompt
               /\ m' = emit (EvSendMessage prompt)
                         (emit (EvStartChat model f) m1)
           | PROCESSING => False
           | _ =>
               r = Raise (Exception_failed_to_process (name f)) /\ m' = m1
           end
       end.
Proof.
  intros srv r m'.
  apply (X11_analyze_sentiment_outcome srv 5 "temp_reviews.csv" fresh r m').
  exact analyze_sentiment_ready_after_2.
Defined.

(** ** The handler: what a displayed chart looks like *)

Lemma analyze_sentiment_no_pyplot srv fuel path m r m' chart :
  analyze_sentiment srv fuel path m = Some (r, m') ->
  In (EvPyplot chart) (trace m') -> In (EvPyplot chart) (trace m).
Proof.
  assert (Hpoll : forall k uploaded (n0 : nat),
            ~ In (EvPyplot chart) (poll_events srv uploaded n0 k)).
  { induction k as [|k IH]; intros uploaded n0; [intros [] |].
    simpl. rewrite in_app_iff. intros [H | H]; [exact (IH _ _ H) |].
    destruct (fetched srv uploaded n0 k); simpl in H;
      decompose [or] H; discriminate || contradiction. }
  unfold analyze_sentiment, upload_to_gemini, wait_for_file_active.
  destruct (upload_file srv path "text/csv") as [uploaded|e].
  - destruct (poll srv fuel uploaded _) as [[r0 m0]|] eqn:Hp; [|discriminate].
    apply poll_Some_inv in Hp as (k & _ & _ & _ & -> & ->).
    specialize (Hpoll k uploaded (fetches m)).
    destruct (fetched srv uploaded _ k) as [f|e];
      [destruct (negb _) |]; intros [= <- <-];
      cbn [trace emit after_passes fetches]; rewrite ?in_app_iff; cbn [In];
      intuition discriminate.
  - intros [= <- <-]. cbn [trace emit]. rewrite in_app_iff. cbn [In].
    intuition discriminate.
Qed.

Lemma show_reply_pyplot h text m r m' chart :
  show_reply h text m = (r, m') ->
  In (EvPyplot chart) (trace m') ->
  In (EvPyplot chart) (trace m)
  \/ exists d,
       parse_analysis_result text = Ok d
       /\ generate_pie_chart (plt h) d = Ok chart
       /\ In (EvWriteText text) (trace m').
Proof.
  unfold show_reply, and_then, st.
  repeat match goal with
         | |- context [display h ?t ?e] => destruct (display h t e)
         | |- context [parse_analysis_result text] =>
             destruct (parse_analysis_result text) as [d|?] eqn:Hparse
         | |- context [generate_pie_chart ?p ?x] =>
             destruct (generate_pie_chart p x) as [c|?] eqn:Hchart
         end;
    intros [= <- <-]; cbn [trace emit]; rewrite ?in_app_iff; cbn [In];
    intros Hin; decompose [or] Hin; try discriminate; try contradiction;
    auto.
  right. exists d.
  match goal with H : EvPyplot _ = EvPyplot _ |- _ => injection H as <- end.
  repeat split; [assumption |]. rewrite ?in_app_iff. cbn [In]. tauto.
Qed.

(** X12: every chart the handler displays is the chart of a tally that the
    parser returned: it has three slices, labelled with the three labels in
    some order, colored green, red and yellow in the order of the slices,
    the first two set off by a tenth. *)
Theorem X12_displayed_chart_shape (srv : remote) (h : host) (fuel : nat)
    (uploaded_file : UploadedFile) (m : machine) (r : result unit)
    (m' : machine) (chart : pie_chart) :
  handle_upload srv h fuel uploaded_file m = Some (r, m') ->
  In (EvPyplot chart) (trace m') ->
  In (EvPyplot chart) (trace m)
  \/ (map wedge_label (wedges chart) ≡ₚ [Positive; Negative; Neutral]
      /\ map wedge_color (wedges chart) = [Some green; Some red; Some yellow]
      /\ map wedge_explode (wedges chart)
         = [Some (1 # 10)%Q; Some (1 # 10)%Q; Some 0%Q]
      /\ exists text d,
           parse_analysis_result text = Ok d
           /\ generate_pie_chart (plt h) d = Ok chart
           /\ In (EvWriteText text) (trace m')).
Proof.
  intros Hh Hin.
  destruct (save_file h (temp_path uploaded_file) (upload_bytes uploaded_file))
    eqn:Hsave.
  2,3: unfold handle_upload, save_upload in Hh;
       fold (temp_path uploaded_file) in Hh; rewrite Hsave in Hh;
       injection Hh as _ <-; left; exact Hin.
  rewrite (handle_upload_saved srv h fuel uploaded_file m Hsave) in Hh.
  cbv zeta in Hh.
  destruct (analyze_sentiment srv fuel _ _) as [[r1 m1]|] eqn:Ha;
    [|discriminate].
  assert (Hm1 : In (EvPyplot chart) (trace m1) -> In (EvPyplot chart) (trace m))
    by exact (analyze_sentiment_no_pyplot _ _ _ _ _ _ _ Ha).
  destruct (match r1 with
            | Ok text => show_reply h text m1
            | Raise e => (Raise e, m1)
            end) as [rt mt] eqn:Hshow.
  destruct (handler_except h rt mt) as [r2 m2] eqn:Hexc.
  injection Hh as _ <-. cbn [trace] in *.
  apply handler_except_frame in Hexc as [_ Htrace].
  assert (Hmt : In (EvPyplot chart) (trace mt)).
  { destruct Htrace as [Ht | (e & _ & Ht)]; rewrite Ht in Hin; [exact Hin |].
    apply in_app_iff in Hin as [Hin | [Hin | []]]; [exact Hin | discriminate]. }
  assert (Hkeep : forall ev, In ev (trace mt) -> In ev (trace m2)).
  { intros ev Hev. destruct Htrace as [Ht | (e & _ & Ht)]; rewrite Ht;
      [exact Hev | apply in_app_iff; now left]. }
  destruct r1 as [text|e]; [|injection Hshow as _ <-; auto].
  destruct (show_reply_pyplot _ _ _ _ _ _ Hshow Hmt)
    as [H | (d & Hparse & Hchart & Hshown)]; [auto |].
  right.
  destruct (parse_success_shape _ _ Hparse) as (Hlen & Hnd & Hkeys & _).
  assert (Hperm : keys d ≡ₚ [Positive; Negative; Neutral]).
  { apply NoDup_Permutation; [assumption | compute_done |].
    intros k. rewrite !list_elem_of_In, Hkeys. simpl. intuition. }
  pose proof (generate_pie_chart_Ok _ _ _ Hchart) as ->.
  assert (Hshape :
    map wedge_label (wedges (pie_arguments d)) ≡ₚ [Positive; Negative; Neutral]
    /\ map wedge_color (wedges (pie_arguments d))
       = [Some green; Some red; Some yellow]
    /\ map wedge_explode (wedges (pie_arguments d))
       = [Some (1 # 10)%Q; Some (1 # 10)%Q; Some 0%Q]).
  { destruct d as [|[k0 v0] [|[k1 v1] [|[k2 v2] [|? ?]]]]; try discriminate.
    rewrite wedges_of_three. repeat split. exact Hperm. }
  destruct Hshape as (H1 & H2 & H3). repeat split; try assumption.
  exists text, d. repeat split; auto.
Qed.

Lemma X12_displayed_chart_shape_witness :
  let chart := pie_arguments
                 [(Negative, 10); (Positive, 40); (Neutral, 50)] in
  In (EvPyplot chart) (trace fresh)
  \/ (map wedge_label (wedges chart) ≡ₚ [Positive; Negative; Neutral]
      /\ map wedge_color (wedges chart) = [Some green; Some red; Some yellow]
      /\ map wedge_explode (wedges chart)
         = [Some (1 # 10)%Q; Some (1 # 10)%Q; Some 0%Q]
      /\ exists text d,
           parse_analysis_result text = Ok d
           /\ generate_pie_chart (plt quiet) d = Ok chart
           /\ In (EvWriteText text)
                [EvUpload "temp_reviews.csv" "text/csv";
                 EvSleep 10; EvGetFile "files/reviews";
                 EvStartChat model (handle ACTIVE); EvSendMessage prompt;
                 EvSuccess "Sentiment analysis completed!";
                 EvWriteText "### Sentiment Analysis Result:";
                 EvWriteText reply_negative_first;
                 EvWriteText "### Sentiment Distribution:";
                 EvPyplot chart]).
Proof.
  intros chart.
  apply (X12_displayed_chart_shape (srv_ready_after 1 reply_negative_first)
           quiet 3 reviews_csv fresh (Ok tt)
           {| disk := ∅; fetches := 1; clock := 10;
              trace :=
                [EvUpload "temp_reviews.csv" "text/csv";
                 EvSleep 10; EvGetFile "files/reviews";
                 EvStartChat model (handle ACTIVE); EvSendMessage prompt;
                 EvSuccess "Sentiment analysis completed!";
                 EvWriteText "### Sentiment Analysis Result:";
                 EvWriteText reply_negative_first;
                 EvWriteText "### Sentiment Distribution:";
                 EvPyplot chart] |}).
  - vm_compute. reflexivity.
  - vm_compute. tauto.
Defined.

(** ** parse_analysis_result: any three numbers, and a reply after a reply *)

(** X14: for any three lines that take the branches of the three labels
    and yield the numbers [vp], [vn] and [vu], a text whose lines include
    them, in any order, and whose other lines contain no label substring
    is parsed to a mapping equal to {Positive: vp, Negative: vn,
    Neutral: vu}: the numbers are not checked against a range or a sum. *)
Theorem X14_three_lines_any_numbers (text lp ln lu : string) (vp vn vu : Z) :
  branch_of lp = Some Positive -> extract_percentage lp = Ok vp ->
  branch_of ln = Some Negative -> extract_percentage ln = Ok vn ->
  branch_of lu = Some Neutral -> extract_percentage lu = Ok vu ->
  In lp (lines_of text) -> In ln (lines_of text) -> In lu (lines_of text) ->
  (forall line, In line (lines_of text) ->
     line = lp \/ line = ln \/ line = lu \/ mentions_label line = false) ->
  exists d, parse_analysis_result text = Ok d
            /\ PyDict.eqb d [(Positive, vp); (Negative, vn); (Neutral, vu)]
               = true.
Proof.
  intros Hbp Hvp Hbn Hvn Hbu Hvu Hp Hn Hu Hother.
  destruct (scan_lines_succeeds (lines_of text) []) as [d Hd].
  { intros l Hl. destruct (Hother l Hl) as [-> | [-> | [-> | H]]]; eauto. }
  destruct (scan_lines_keys _ _ _ Hd) as [Hnd Hkeys].
  specialize (Hnd (NoDup_nil_2 (A:=string))).
  assert (Hval : forall k v, getitem k d = Some v ->
            getitem k [(Positive, vp); (Negative, vn); (Neutral, vu)]
            = Some v).
  { intros k v Hg.
    destruct (scan_lines_values _ _ _ _ _ Hd Hg) as [H | (l & Hl & Hb & Hv)];
      [discriminate |].
    destruct (Hother l Hl) as [-> | [-> | [-> | H]]].
    - assert (k = Positive) as -> by congruence.
      assert (v = vp) as -> by congruence. reflexivity.
    - assert (k = Negative) as -> by congruence.
      assert (v = vn) as -> by congruence. reflexivity.
    - assert (k = Neutral) as -> by congruence.
      assert (v = vu) as -> by congruence. reflexivity.
    - apply branch_of_None in H. congruence. }
  assert (Hlen : len d = 3%nat).
  { apply len_three_labels; [assumption |]. intros k. rewrite Hkeys. split.
    - intros [[] | (l & _ & Hb)]. now apply branch_of_label in Hb.
    - intros [-> | [-> | ->]]; right; eauto. }
  exists d. split.
  - rewrite parse_analysis_result_try, parse_try_lines, Hd. simpl.
    now rewrite Hlen.
  - unfold PyDict.eqb. rewrite Hlen.
    apply andb_true_iff. split; [reflexivity |].
    apply forallb_forall. intros [k v] Hin. cbn [fst snd].
    rewrite (Hval k v) by now apply getitem_In.
    apply Z.eqb_refl.
Qed.

Lemma X14_three_lines_any_numbers_witness :
  exists d,
    parse_analysis_result
      (unlines ["Neutral: -5%"; "Positive: 250 %"; "n/a"; "Negative: 1_000"])
    = Ok d
    /\ PyDict.eqb d [(Positive, 250); (Negative, 1000); (Neutral, -5)] = true.
Proof.
  apply (X14_three_lines_any_numbers _ "Positive: 250 %" "Negative: 1_000"
           "Neutral: -5%"); try reflexivity; try (vm_compute; tauto).
  intros line Hin. vm_compute in Hin.
  decompose [or] Hin; subst; try contradiction; auto.
Defined.

Section LiteralFacts.

Implicit Types (s tok : string) (c : ascii).

Lemma has_char_app c s t :
  has_char c (s +:+ t) = has_char c s || has_char c t.
Proof.
  induction s as [|a s IH]; simpl; [reflexivity |].
  now rewrite IH, orb_assoc.
Qed.

Lemma contains_without_first_char c needle s :
  has_char c s = false -> contains (String c needle) s = false.
Proof.
  induction s as [|a s IH]; [reflexivity |].
  simpl has_char. intros [Ha Hs]%orb_false_iff.
  change (contains (String c needle) (String a s))
    with (Ascii.eqb c a && is_prefix needle s
          || contains (String c needle) s).
  now rewrite Ascii.eqb_sym, Ha, IH.
Qed.

Lemma remove_char_absent c s :
  has_char c s = false -> remove_char c s = s.
Proof.
  induction s as [|a s IH]; [reflexivity |].
  simpl. intros [Ha Hs]%orb_false_iff. now rewrite Ha, IH.
Qed.

Lemma rstrip_no_space s : no_space s = true -> rstrip s = s.
Proof.
  induction s as [|a s IH]; [reflexivity |].
  simpl. intros [Ha%negb_true_iff Hs]%andb_true_iff.
  rewrite (IH Hs), Ha. now destruct s.
Qed.

Lemma strip_no_space s : no_space s = true -> strip s = s.
Proof.
  intros Hs. unfold strip.
  assert (lstrip s = s) as ->; [|now apply rstrip_no_space].
  destruct s as [|a s]; [reflexivity |].
  simpl in *. apply andb_true_iff in Hs as [Ha%negb_true_iff _].
  now rewrite Ha.
Qed.

Lemma split_ws_token tok :
  no_space tok = true -> tok <> EmptyString -> split_ws tok = [tok].
Proof.
  induction tok as [|a tok IH]; [contradiction |].
  simpl no_space. intros [Ha%negb_true_iff Htok]%andb_true_iff _.
  destruct tok as [|b tok]; [simpl; now rewrite Ha |].
  change (split_ws (String a (String b tok)))
    with (if is_space a then split_ws (String b tok)
          else if is_space b
               then String a EmptyString :: split_ws (String b tok)
               else match split_ws (String b tok) with
                    | t :: ts => String a t :: ts
                    | [] => [String a EmptyString]
                    end).
  rewrite Ha. pose proof Htok as Hb. simpl in Hb.
  apply andb_true_iff in Hb as [Hb%negb_true_iff _].
  rewrite Hb, IH; [reflexivity | assumption | discriminate].
Qed.

Lemma scan_digits_chars s : forall b acc n v n',
  scan_digits b acc n s = Some (v, n', EmptyString) ->
  forall c, has_char c s = true -> digit_value c <> None \/ c = underscore.
Proof.
  induction s as [|a s IH]; intros b acc n v n' Hscan c; [discriminate |].
  simpl in Hscan. simpl has_char.
  destruct (Ascii.eqb_spec a underscore) as [-> | Hus].
  - destruct b; [discriminate |].
    intros [->%Ascii.eqb_eq | H]%orb_true_iff; [now right | eauto].
  - destruct (digit_value a) as [dv|] eqn:Ha.
    + intros [<-%Ascii.eqb_eq | H]%orb_true_iff; [left; congruence | eauto].
    + destruct b; discriminate.
Qed.

Lemma py_int_Ok_inv tok v :
  py_int tok = Ok v ->
  exists v0 n,
    scan_digits false 0 0 (snd (split_sign (strip tok)))
    = Some (v0, S n, EmptyString).
Proof.
  unfold py_int. destruct (split_sign (strip tok)) as [negative body].
  cbn [snd]. destruct (is_prefix "_" body); [discriminate |].
  destruct (scan_digits false 0 0 body) as [[[v0 digits] rest]|];
    [|discriminate].
  destruct (max_str_digits <? digits)%nat; [discriminate |].
  destruct digits; [discriminate |]. destruct rest; [|discriminate].
  eauto.
Qed.

(** The characters of a token that [int] accepts. *)
Lemma py_int_chars tok v c :
  py_int tok = Ok v -> no_space tok = true ->
  digit_value c = None -> c <> underscore -> c <> "+"%char -> c <> "-"%char ->
  has_char c tok = false.
Proof.
  intros (v0 & n & Hscan)%py_int_Ok_inv Htok Hd Hus Hplus Hminus.
  rewrite (strip_no_space tok Htok) in Hscan.
  destruct (has_char c tok) eqn:Hc; [exfalso | reflexivity].
  assert (Hbody : forall body,
            scan_digits false 0 0 body = Some (v0, S n, EmptyString) ->
            has_char c body = true -> False).
  { intros body Hb Hcb.
    destruct (scan_digits_chars _ _ _ _ _ _ Hb c Hcb); auto. }
  destruct tok as [|a s]; [discriminate |].
  unfold split_sign in Hscan. simpl in Hc.
  destruct (Ascii.eqb_spec a "-") as [-> | Hna];
    [|destruct (Ascii.eqb_spec a "+") as [-> | Hnp]]; cbn [snd] in Hscan.
  - apply orb_true_iff in Hc as [Hc%Ascii.eqb_eq | Hc]; [congruence | eauto].
  - apply orb_true_iff in Hc as [Hc%Ascii.eqb_eq | Hc]; [congruence | eauto].
  - apply (Hbody _ Hscan). exact Hc.
Qed.

Lemma py_int_not_empty v : py_int EmptyString <> Ok v.
Proof. discriminate. Qed.

End LiteralFacts.

(** ** The malformed lines: the token after the first colon *)

Section MalformedFacts.

Implicit Types (s t w x y line rest : string) (c : ascii).

Lemma after_first_colon_Some line rest :
  after_first_colon line = Some rest ->
  exists a, has_char colon a = false /\ line = a +:+ String colon rest.
Proof.
  induction line as [|c line IH]; [discriminate |].
  simpl. destruct (Ascii.eqb_spec c colon) as [-> | Hc].
  - intros [= ->]. now exists EmptyString.
  - intros (a & Ha & ->)%IH. exists (String c a). split; [|reflexivity].
    simpl. rewrite Ha, orb_false_r. now apply Ascii.eqb_neq.
Qed.

Lemma has_char_all_space c w :
  all_space w = true -> is_space c = false -> has_char c w = false.
Proof.
  intros Hw Hc. induction w as [|a w IH]; [reflexivity |].
  simpl in *. apply andb_true_iff in Hw as [Ha Hw].
  rewrite (IH Hw), (Ascii.eqb_sym a c), (space_neq a c Ha Hc). reflexivity.
Qed.

Lemma has_char_remove_char c old s :
  c <> old -> has_char c (remove_char old s) = has_char c s.
Proof.
  intros Hne. induction s as [|a s IH]; [reflexivity |].
  simpl. destruct (Ascii.eqb_spec a old) as [-> | Ha]; simpl; rewrite IH.
  - destruct (Ascii.eqb_spec old c); [congruence | reflexivity].
  - reflexivity.
Qed.

Lemma no_space_remove_char old s :
  no_space s = true -> no_space (remove_char old s) = true.
Proof.
  induction s as [|a s IH]; [reflexivity |].
  simpl. intros [Ha Hs]%andb_true_iff.
  destruct (Ascii.eqb a old); simpl; [auto | now rewrite Ha, IH].
Qed.

(** The first token of [s.split()] in [s]: whitespace before it, and
    after it the end of [s] or a whitespace character. *)
Lemma split_ws_head s t :
  head (split_ws s) = Some t ->
  exists w y,
    all_space w = true /\ no_space t = true /\ t <> EmptyString
    /\ s = w +:+ t +:+ y
    /\ (y = EmptyString \/ exists c y', is_space c = true /\ y = String c y').
Proof.
  revert t. induction s as [|a s IH]; intros t; [discriminate |].
  destruct (is_space a) eqn:Ha.
  - rewrite split_ws_cons_space by assumption.
    intros (w & y & Hw & Ht & Hne & -> & Hy)%IH.
    exists (String a w), y. simpl. rewrite Ha. auto.
  - destruct s as [|b s].
    + simpl. rewrite Ha. intros [= <-].
      exists EmptyString, EmptyString. simpl. rewrite Ha.
      repeat split; auto; discriminate.
    + change (split_ws (String a (String b s)))
        with (if is_space a then split_ws (String b s)
              else if is_space b
                   then String a EmptyString :: split_ws (String b s)
                   else match split_ws (String b s) with
                        | tok :: toks => String a tok :: toks
                        | [] => [String a EmptyString]
                        end).
      rewrite Ha. destruct (is_space b) eqn:Hb.
      * intros [= <-]. exists EmptyString, (String b s). simpl.
        rewrite Ha. repeat split; eauto; discriminate.
      * pose proof (split_ws_cons_not_nil b s Hb) as Hnn.
        destruct (split_ws (String b s)) as [|tok toks] eqn:Hsplit;
          [contradiction |].
        intros [= <-].
        destruct (IH tok eq_refl) as (w & y & Hw & Ht & Hne & Hs & Hy).
        destruct w as [|b' w].
        -- exists EmptyString, y. simpl in *. rewrite Ha, Ht, Hs.
           repeat split; auto; discriminate.
        -- simpl in Hs, Hw. injection Hs as <- _. now rewrite Hb in Hw.
Qed.

(** A line that yields no number is malformed by the letter as well: the
    lines that are malformed by the letter and are read all the same are
    those in which a percent sign or a second colon separates tokens. *)
Lemma malformed_as_worded_of_malformed line :
  malformed line = true -> malformed_as_worded line = true.
Proof.
  intros Hbad. destruct (malformed_as_worded line) eqn:Hworded;
    [reflexivity | exfalso].
  apply malformed_extract_raises in Hbad as [e He].
  unfold malformed_as_worded in Hworded.
  destruct (after_first_colon line) as [rest|] eqn:Hrest; [|discriminate].
  destruct (head (split_ws rest)) as [t|] eqn:Hhead; [|discriminate].
  apply negb_false_iff in Hworded. unfold is_integer in Hworded.
  destruct (py_int (remove_char percent t)) as [v|] eqn:Hint;
    [clear Hworded | discriminate].
  apply after_first_colon_Some in Hrest as (a & Ha & ->).
  apply split_ws_head in Hhead as (w & y & Hw & Ht & Hne & -> & Hy).
  pose proof (no_space_remove_char percent t Ht) as Htok.
  assert (Hcolon : has_char colon t = false).
  { rewrite <- (has_char_remove_char colon percent t) by discriminate.
    apply (py_int_chars _ v); auto; discriminate. }
  assert (Hbase : extract_percentage (a +:+ String colon (w +:+ t)) = Ok v).
  { unfold extract_percentage.
    rewrite split_after_first
      by (apply (contains_without_first_char colon EmptyString); exact Ha).
    rewrite (split_without_sep colon (w +:+ t)).
    2:{ apply (contains_without_first_char colon EmptyString).
        rewrite has_char_app, Hcolon, orb_false_r.
        now apply has_char_all_space. }
    cbn [py_index nth_error bind].
    rewrite split_ws_remove_strip, remove_char_app.
    rewrite (remove_percent_all_space w Hw), split_ws_space_app by assumption.
    rewrite split_ws_token; [exact Hint | exact Htok |].
    intros Hempty. rewrite Hempty in Hint. discriminate. }
  destruct Hy as [-> | (c & y' & Hc & ->)].
  - rewrite append_nil_r in He. congruence.
  - pose proof (extract_app_break _ c y' v Hbase Hc) as Hext.
    replace ((a +:+ String colon (w +:+ t)) +:+ String c y')
      with (a +:+ String colon (w +:+ t +:+ String c y')) in Hext.
    + congruence.
    + rewrite append_assoc. simpl. now rewrite append_assoc.
Qed.

End MalformedFacts.

Lemma labelled_break label tok :
  labelled label tok = (label +:+ ":") +:+ String " " (tok +:+ "%").
Proof. unfold labelled. now rewrite append_assoc. Qed.

Lemma contains_label_in_token label tok v :
  is_label label -> py_int tok = Ok v -> no_space tok = true ->
  contains label (tok +:+ "%") = false.
Proof.
  intros Hl Hint Htok.
  assert (HP : has_char "P" (tok +:+ "%") = false).
  { rewrite has_char_app, (py_int_chars tok v "P" Hint Htok);
      reflexivity || discriminate. }
  assert (HN : has_char "N" (tok +:+ "%") = false).
  { rewrite has_char_app, (py_int_chars tok v "N" Hint Htok);
      reflexivity || discriminate. }
  destruct Hl as [-> | [-> | ->]]; unfold Positive, Negative, Neutral;
    now apply contains_without_first_char.
Qed.

(** X15: for each of the three labels and every token without whitespace
    that [int] accepts, signed or not, of any size, the line
    [<label>: <token>%] sets the entry of that label to the value of the
    token and leaves the other entries as they are. *)
Theorem X15_labelled_line_sets_entry (label tok : string) (v : Z) (d : dict) :
  is_label label ->
  no_space tok = true ->
  py_int tok = Ok v ->
  scan_line d (labelled label tok) = Ok (setitem label v d).
Proof.
  intros Hl Htok Hint. rewrite scan_line_branch.
  assert (Hne : tok <> EmptyString) by (intros ->; discriminate).
  assert (Hextract : extract_percentage (labelled label tok) = Ok v).
  { assert (Hcolon : has_char colon tok = false)
      by (apply (py_int_chars tok v colon Hint Htok); reflexivity || discriminate).
    assert (Hpercent : has_char percent tok = false)
      by (apply (py_int_chars tok v percent Hint Htok);
          reflexivity || discriminate).
    unfold labelled, extract_percentage.
    rewrite split_after_first
      by (destruct Hl as [-> | [-> | ->]]; reflexivity).
    rewrite split_without_sep.
    2:{ apply contains_without_first_char. cbn [has_char].
        rewrite has_char_app, Hcolon. reflexivity. }
    cbn [py_index nth_error bind]. rewrite split_ws_remove_strip.
    cbn [remove_char]. change (Ascii.eqb " " percent) with false. cbn iota.
    rewrite remove_char_app, remove_char_absent by exact Hpercent.
    rewrite split_ws_cons_space by reflexivity.
    change (remove_char percent "%") with EmptyString.
    rewrite append_nil_r, split_ws_token by assumption.
    exact Hint. }
  rewrite Hextract. cbn [bind].
  assert (Hbranch : branch_of (labelled label tok) = Some label).
  { unfold branch_of. rewrite labelled_break.
    rewrite (contains_app_break Positive), (contains_app_break Negative),
      (contains_app_break Neutral) by (reflexivity || discriminate).
    rewrite (contains_label_in_token Positive tok v),
      (contains_label_in_token Negative tok v),
      (contains_label_in_token Neutral tok v)
      by (assumption || (red; auto)).
    destruct Hl as [-> | [-> | ->]]; reflexivity. }
  now rewrite Hbranch.
Qed.

Lemma X15_labelled_line_sets_entry_witness :
  scan_line [(Positive, 40)] (labelled Negative "-1_250")
  = Ok (setitem Negative (-1250) [(Positive, 40)]).
Proof.
  apply X15_labelled_line_sets_entry.
  - right. left. reflexivity.
  - reflexivity.
  - reflexivity.
Defined.

Lemma lines_of_app_LF t1 t2 :
  lines_of (t1 +:+ String LF t2) = lines_of t1 ++ lines_of t2.
Proof.
  unfold lines_of. rewrite split_app, split_cons_sep by reflexivity.
  cbn [hd tl]. rewrite append_nil_r.
  rewrite (app_removelast_last EmptyString (split_not_nil LF t1)) at 3.
  now rewrite <- app_assoc.
Qed.

Lemma last_occurrence (P : string -> Prop) `{!forall l, Decision (P l)}
    (ls : list string) :
  (exists l, In l ls /\ P l) ->
  exists before line after,
    ls = before ++ line :: after /\ P line
    /\ forall l, In l after -> ~ P l.
Proof.
  induction ls as [|l ls IH]; [intros (? & [] & _) |].
  intros (l0 & Hin & Hl0).
  destruct (decide (Exists P ls)) as [Hlater | Hnone].
  - destruct IH as (before & line & after & -> & Hline & Hafter).
    { apply Exists_exists in Hlater as (l' & Hin'%list_elem_of_In & Hl').
      eauto. }
    exists (l :: before), line, after. auto.
  - assert (Hnot : forall l', In l' ls -> ~ P l').
    { intros l' Hin'%list_elem_of_In Hl'. apply Hnone, Exists_exists. eauto. }
    exists [], l, ls. repeat split; [|exact Hnot].
    destruct Hin as [<- | Hin]; [assumption |]. now apply Hnot in Hin.
Qed.

Lemma scan_lines_Ok_well_formed ls d d' :
  scan_lines d ls = Ok d' -> label_lines_well_formed ls.
Proof.
  intros Hd line Hin Hm.
  destruct (malformed line) eqn:Hbad; [|reflexivity].
  apply malformed_extract_raises in Hbad as [e He].
  destruct (scan_lines_fails _ d _ _ Hin Hm He) as [e' He'].
  congruence.
Qed.

(** X13: when a reply that the parser accepts comes after another text in
    which every line that contains a label substring yields a number, the
    parser accepts the whole and returns the values of the later reply. *)
Theorem X13_later_reply_wins (t1 t2 : string) (d2 : dict) :
  parse_analysis_result t2 = Ok d2 ->
  label_lines_well_formed (lines_of t1) ->
  exists d, parse_analysis_result (t1 +:+ String LF t2) = Ok d
            /\ PyDict.eqb d d2 = true.
Proof.
  intros Hd2 Hwf1.
  destruct (parse_success_shape _ _ Hd2) as (Hlen2 & _ & Hkeys2 & Hlines2).
  apply parse_analysis_result_Ok in Hd2 as [Hscan2 _].
  pose proof (scan_lines_Ok_well_formed _ _ _ Hscan2) as Hwf2.
  destruct (scan_lines_succeeds (lines_of (t1 +:+ String LF t2)) [])
    as [d Hd].
  { intros l. rewrite lines_of_app_LF, in_app_iff. intros Hin.
    destruct (mentions_label l) eqn:Hm; [right | now left].
    apply well_formed_extract. destruct Hin; [apply Hwf1 | apply Hwf2]; auto. }
  destruct (scan_lines_keys _ _ _ Hd) as [Hnd Hkeys].
  specialize (Hnd (NoDup_nil_2 (A:=string))).
  assert (Hlen : len d = 3%nat).
  { apply len_three_labels; [assumption |]. intros k. rewrite Hkeys. split.
    - intros [[] | (l & _ & Hb)]. now apply branch_of_label in Hb.
    - intros Hk. right. destruct (Hlines2 k) as (l & Hin & Hb);
        [now apply Hkeys2 |].
      exists l. rewrite lines_of_app_LF, in_app_iff. auto. }
  exists d. split.
  - rewrite parse_analysis_result_try, parse_try_lines, Hd. simpl.
    now rewrite Hlen.
  - unfold PyDict.eqb. rewrite Hlen, Hlen2.
    apply andb_true_iff. split; [reflexivity |].
    apply forallb_forall. intros [k v] Hin. cbn [fst snd].
    pose proof (getitem_In d k v Hnd Hin) as Hg.
    assert (Hk : In k (keys d))
      by (apply getitem_In_keys; congruence).
    assert (Hlabel : is_label k).
    { apply Hkeys in Hk as [[] | (l & _ & Hb)].
      now apply branch_of_label in Hb. }
    destruct (last_occurrence (fun l => branch_of l = Some k) (lines_of t2))
      as (before & line & after & Hsplit & Hline & Hafter).
    { apply Hlines2, Hkeys2, Hlabel. }
    rewrite Hsplit in Hscan2.
    destruct (scan_lines_last _ _ _ _ _ _ Hscan2 Hline Hafter)
      as (v2 & Hv2 & Hg2).
    rewrite lines_of_app_LF, Hsplit, app_assoc in Hd.
    destruct (scan_lines_last _ _ _ _ _ _ Hd Hline Hafter) as (v' & Hv' & Hg').
    rewrite Hg2. assert (v = v2) as -> by congruence. apply Z.eqb_refl.
Qed.

Lemma X13_later_reply_wins_witness :
  exists d,
    parse_analysis_result
      (unlines ["Positive: 30%"; "Negative: 30%"; "Neutral: 40%"; "Correction"]
       +:+ String LF
             (unlines ["Neutral: 50%"; "Positive: 40%"; "Negative: 10%"]))
    = Ok d
    /\ PyDict.eqb d [(Neutral, 50); (Positive, 40); (Negative, 10)] = true.
Proof.
  apply X13_later_reply_wins.
  - reflexivity.
  - intros line Hin Hm. vm_compute in Hin.
    decompose [or] Hin; subst; try contradiction; try reflexivity;
      vm_compute in Hm; discriminate.
Defined.
